(** * Security analytics collector (src/analytics/collector.py)

    A shallow embedding of the collection -> detection -> alerting pipeline:
    the rotation-aware log tailer ([BaseLogParser.parse_new_events]), the web
    access parsers, the bounded buffers, the baseline estimator, the z-score
    anomaly check, the threat correlator and the alert identifiers.

    Conventions.
    - Python [str] is [string]; a character is one of the first 256 code
      points, and a text file's offset counts characters.
    - Python [float] is the kernel's binary64 [float]; Python [int] is [Z].
    - A Python exception is a value ([Raise e]); state changed before the
      exception was raised stays changed, as in Python.
    - [dict] is [gmap]; [deque(maxlen=n)] is a list with the oldest entry
      first. *)

From Stdlib Require Import ZArith Lia Ascii String List Floats.
From stdpp Require Import base option list gmap strings pretty.

(** ** Python runtime fragments *)

(** An exception object: its class name and [str(e)]. *)
Inductive py_exn := PyExn (cls msg : string).

Definition exn_str (e : py_exn) : string := let 'PyExn _ msg := e in msg.

Inductive result (A : Type) :=
| Ok (a : A)
| Raise (e : py_exn).
Arguments Ok {A} a.
Arguments Raise {A} e.

(** [s[n:]] on a string. *)
Fixpoint sdrop (n : nat) (s : string) : string :=
  match n, s with
  | O, _ => s
  | S _, EmptyString => EmptyString
  | S n', String _ s' => sdrop n' s'
  end.

(** [sub in s] *)
Fixpoint contains (sub s : string) : bool :=
  String.prefix sub s ||
  match s with
  | EmptyString => false
  | String _ s' => contains sub s'
  end.

(** [str.isspace] on the first 256 code points. *)
Definition isspace (c : ascii) : bool :=
  let n := nat_of_ascii c in
  ((9 <=? n) && (n <=? 13)) || ((28 <=? n) && (n <=? 32)) ||
  (n =? 133) || (n =? 160).

Fixpoint lstrip (s : string) : string :=
  match s with
  | EmptyString => EmptyString
  | String c s' => if isspace c then lstrip s' else s
  end.

Fixpoint rstrip (s : string) : string :=
  match s with
  | EmptyString => EmptyString
  | String c s' =>
    match rstrip s' with
    | EmptyString => if isspace c then EmptyString else String c EmptyString
    | r => String c r
    end
  end.

(** [s.strip()] *)
Definition strip (s : string) : string := rstrip (lstrip s).

(** [s.split(sep)] for a separator of one character. *)
Fixpoint split (sep : ascii) (s : string) : list string :=
  match s with
  | EmptyString => [EmptyString]
  | String c s' =>
    if Ascii.eqb c sep then EmptyString :: split sep s'
    else match split sep s' with
         | [] => [String c EmptyString]
         | w :: ws => String c w :: ws
         end
  end.

Definition newline : ascii := ascii_of_nat 10.

(** [''.join(l)] *)
Definition join (l : list string) : string := foldr String.append EmptyString l.

(** [l[-n:]] for [n > 0]. *)
Definition lastn {A} (n : nat) (l : list A) : list A := drop (length l - n) l.

(** ** Python numbers *)

Inductive pynum :=
| PyInt (n : Z)
| PyFloat (x : float).

(** [float(n)], rounded to nearest. *)
Definition float_of_Z (n : Z) : float := SF2Prim (binary_normalize 53 1024 n 0 false).

(** [int(x)] for a finite [x]: truncation towards zero. *)
Definition int_of_float (x : float) : Z :=
  match Prim2SF x with
  | S754_finite s m e =>
    let v := if (0 <=? e)%Z then (Z.pos m * 2 ^ e)%Z else (Z.pos m / 2 ^ (- e))%Z in
    if s then (- v)%Z else v
  | _ => 0%Z
  end.

Definition to_float (a : pynum) : float :=
  match a with
  | PyInt n => float_of_Z n
  | PyFloat x => x
  end.

Definition py_add (a b : pynum) : pynum :=
  match a, b with
  | PyInt m, PyInt n => PyInt (m + n)
  | _, _ => PyFloat (to_float a + to_float b)
  end.

(** [sum(values)]: from the integer 0, left to right, each addition rounded
    (CPython up to 3.11; later versions compensate the rounding of a sum of
    floats). *)
Definition py_sum (values : list pynum) : pynum := fold_left py_add values (PyInt 0).

Definition ZeroDivisionError (msg : string) : py_exn := PyExn "ZeroDivisionError" msg.

(** [x / y] on floats. *)
Definition float_truediv (x y : float) : result float :=
  if (y =? 0)%float then Raise (ZeroDivisionError "float division by zero")
  else Ok (x / y)%float.

(** [a / b]: true division. *)
Definition py_truediv (a b : pynum) : result float :=
  match a, b with
  | PyInt m, PyInt n =>
    if (n =? 0)%Z then Raise (ZeroDivisionError "division by zero")
    else Ok (float_of_Z m / float_of_Z n)%float
  | _, _ => float_truediv (to_float a) (to_float b)
  end.

(** [a < b] *)
Definition py_lt (a b : pynum) : bool :=
  match a, b with
  | PyInt m, PyInt n => (m <? n)%Z
  | _, _ => (to_float a <? to_float b)%float
  end.

(** The [FileNotFoundError] of [os.stat('/var/log/auth.log')]. *)
Definition FileNotFoundError : py_exn :=
  PyExn "FileNotFoundError" "[Errno 2] No such file or directory: '/var/log/auth.log'".

(** The [PermissionError] of [open('/var/log/auth.log', 'r')]. *)
Definition PermissionError : py_exn :=
  PyExn "PermissionError" "[Errno 13] Permission denied: '/var/log/auth.log'".

Definition ValueError (msg : string) : py_exn := PyExn "ValueError" msg.

(** [min(values)]: the first of the smallest items. *)
Definition py_min (values : list pynum) : result pynum :=
  match values with
  | [] => Raise (ValueError "min() arg is an empty sequence")
  | v :: vs => Ok (fold_left (fun cur item => if py_lt item cur then item else cur) vs v)
  end.

(** [max(values)]: the first of the largest items. *)
Definition py_max (values : list pynum) : result pynum :=
  match values with
  | [] => Raise (ValueError "max() arg is an empty sequence")
  | v :: vs => Ok (fold_left (fun cur item => if py_lt cur item then item else cur) vs v)
  end.

(** [format(x, '.2f')]: two decimals of the exact binary value, ties to
    even. *)
Definition format_2f (x : float) : string :=
  let digits (s : bool) (n : Z) :=
    let frac := (n mod 100)%Z in
    (if s then "-" else "") +:+ pretty (n / 100)%Z +:+ "." +:+
    (if (frac <? 10)%Z then "0" else "") +:+ pretty frac in
  match Prim2SF x with
  | S754_zero s => digits s 0%Z
  | S754_infinity s => if s then "-inf" else "inf"
  | S754_nan => "nan"
  | S754_finite s m e =>
    let num := (Z.pos m * 100)%Z in
    if (0 <=? e)%Z then digits s (num * 2 ^ e)%Z
    else
      let den := (2 ^ (- e))%Z in
      let q := (num / den)%Z in
      let r := (num mod den)%Z in
      let up := (den <? 2 * r)%Z || ((den =? 2 * r)%Z && Z.odd q) in
      digits s (if up then q + 1 else q)%Z
  end.

(** ** The log tailer: [BaseLogParser] *)

Module Tailer.

(** What one call sees of the file system at [log_path]: the outcome of
    [os.stat] (the inode number [st_ino], or the exception raised) and the
    outcome of opening the file and reading it (the whole text of the file,
    or the exception raised by [open] or by [f.read]). *)
Record file_view := FileView {
  os_stat : result Z;
  open_read : result string
}.

(** [self.last_position], [self.last_inode]. *)
Record cursor := Cursor {
  last_position : nat;
  last_inode : option Z
}.

(** [BaseLogParser.__init__] *)
Definition init : cursor := Cursor 0 None.

(** Truth value of [self.last_inode]: [None] and [0] are false. *)
Definition truthy (o : option Z) : bool :=
  match o with
  | None => false
  | Some i => negb (i =? 0)%Z
  end.

(** [stat.st_ino != self.last_inode] *)
Definition ino_differs (st_ino : Z) (o : option Z) : bool :=
  match o with
  | None => true
  | Some i => negb (st_ino =? i)%Z
  end.

(** The text file object returned by [open(log_path, 'r')]. *)
Record text_io := TextIO {
  buffer : string;
  pos : nat
}.

Definition seek (p : nat) (f : text_io) : text_io := TextIO (buffer f) p.

(** [f.read()]: everything from the position to the end; a position past
    the end reads nothing and stays where it is. *)
Definition read (f : text_io) : string * text_io :=
  (sdrop (pos f) (buffer f),
   TextIO (buffer f) (Nat.max (pos f) (String.length (buffer f)))).

Definition tell (f : text_io) : nat := pos f.

(** The body of the [try] block of [parse_new_events] up to the call of
    [_parse_content]: the new content, or the exception, and the cursor as
    the block leaves it. *)
Definition read_new_content (fv : file_view) (st : cursor)
  : result string * cursor :=
  match os_stat fv with
  | Raise e => (Raise e, st)
  | Ok st_ino =>
    (* Check if file was rotated *)
    let st1 :=
      if truthy (last_inode st) && ino_differs st_ino (last_inode st)
      then Cursor 0 (last_inode st) else st in
    let st2 := Cursor (last_position st1) (Some st_ino) in
    (* Read new content *)
    match open_read fv with
    | Raise e => (Raise e, st2)
    | Ok data =>
      let f := seek (last_position st2) (TextIO data 0) in
      let '(new_content, f') := read f in
      (Ok new_content, Cursor (tell f') (last_inode st2))
    end
  end.

Section Parser.

Context {event : Type}.
(** [self._parse_content], implemented by the subclasses. *)
Variable _parse_content : string -> result (list event).

(** [BaseLogParser.parse_new_events]: the events, the cursor afterwards and
    the records written through [logger.error]. *)
Definition parse_new_events (log_path : string) (fv : file_view) (st : cursor)
  : list event * cursor * list string :=
  let failed e := "Failed to parse " +:+ log_path +:+ ": " +:+ exn_str e in
  match read_new_content fv st with
  | (Raise e, st') => ([], st', [failed e])
  | (Ok new_content, st') =>
    match _parse_content new_content with
    | Ok events => (events, st', [])
    | Raise e => ([], st', [failed e])
    end
  end.

End Parser.

(** A file that is there and readable: inode [ino], text [data]. *)
Definition readable (ino : Z) (data : string) : file_view :=
  FileView (Ok ino) (Ok data).

(** Successive calls on readable states of the file: the chunk of new
    content each call hands to the parser, and the cursor at the end. *)
Fixpoint run (st : cursor) (obs : list (Z * string)) : list string * cursor :=
  match obs with
  | [] => ([], st)
  | (ino, data) :: obs' =>
    match read_new_content (readable ino data) st with
    | (Ok chunk, st') => let '(chunks, st'') := run st' obs' in (chunk :: chunks, st'')
    | (Raise _, st') => run st' obs'
    end
  end.

(** The cursors the tailer can be in when inode numbers are not 0: before
    the first successful [os.stat] the offset is 0. *)
Definition cursor_wf (st : cursor) : Prop :=
  match last_inode st with
  | None => last_position st = 0
  | Some i => i <> 0%Z
  end.

(** Successive states of a file that is only appended to. *)
Fixpoint growing (datas : list string) : Prop :=
  match datas with
  | d1 :: (d2 :: _) as rest => String.prefix d1 d2 = true /\ growing rest
  | _ => True
  end.

(** The life of a log path as the tailer observes it: a list of files, each
    with its inode number and the texts seen at the successive calls made
    while that file was at the path. *)
Definition history : Type := list (Z * list string).

Fixpoint history_ok (h : history) : Prop :=
  match h with
  | [] => True
  | (ino, datas) :: h' =>
    ino <> 0%Z /\ datas <> [] /\ growing datas /\
    match h' with
    | (ino', _) :: _ => ino <> ino'
    | [] => True
    end /\ history_ok h'
  end.

(** The calls made while one file is at the path. *)
Definition calls (seg : Z * list string) : list (Z * string) :=
  map (pair (fst seg)) (snd seg).

(** For each file of a history, all that the calls made on it delivered, in
    order. *)
Fixpoint delivered (st : cursor) (h : history) : list string :=
  match h with
  | [] => []
  | seg :: h' =>
    let '(chunks, st') := run st (calls seg) in
    join chunks :: delivered st' h'
  end.

(** The text of a file when it was last seen. *)
Definition final_text (seg : Z * list string) : string := List.last (snd seg) "".

End Tailer.

(** ** [hashlib.md5] (RFC 1321) *)

Module MD5.

Local Open Scope Z_scope.

Definition mask32 (x : Z) : Z := Z.land x 0xffffffff.
Definition add32 (x y : Z) : Z := mask32 (x + y).
Definition not32 (x : Z) : Z := Z.lxor x 0xffffffff.
Definition rotl32 (x c : Z) : Z :=
  mask32 (Z.lor (Z.shiftl x c) (Z.shiftr x (32 - c))).

Definition shifts : list Z :=
  [7; 12; 17; 22; 7; 12; 17; 22; 7; 12; 17; 22; 7; 12; 17; 22;
   5; 9; 14; 20; 5; 9; 14; 20; 5; 9; 14; 20; 5; 9; 14; 20;
   4; 11; 16; 23; 4; 11; 16; 23; 4; 11; 16; 23; 4; 11; 16; 23;
   6; 10; 15; 21; 6; 10; 15; 21; 6; 10; 15; 21; 6; 10; 15; 21].

Definition sines : list Z :=
  [0xd76aa478; 0xe8c7b756; 0x242070db; 0xc1bdceee;
   0xf57c0faf; 0x4787c62a; 0xa8304613; 0xfd469501;
   0x698098d8; 0x8b44f7af; 0xffff5bb1; 0x895cd7be;
   0x6b901122; 0xfd987193; 0xa679438e; 0x49b40821;
   0xf61e2562; 0xc040b340; 0x265e5a51; 0xe9b6c7aa;
   0xd62f105d; 0x02441453; 0xd8a1e681; 0xe7d3fbc8;
   0x21e1cde6; 0xc33707d6; 0xf4d50d87; 0x455a14ed;
   0xa9e3e905; 0xfcefa3f8; 0x676f02d9; 0x8d2a4c8a;
   0xfffa3942; 0x8771f681; 0x6d9d6122; 0xfde5380c;
   0xa4beea44; 0x4bdecfa9; 0xf6bb4b60; 0xbebfbc70;
   0x289b7ec6; 0xeaa127fa; 0xd4ef3085; 0x04881d05;
   0xd9d4d039; 0xe6db99e5; 0x1fa27cf8; 0xc4ac5665;
   0xf4292244; 0x432aff97; 0xab9423a7; 0xfc93a039;
   0x655b59c3; 0x8f0ccc92; 0xffeff47d; 0x85845dd1;
   0x6fa87e4f; 0xfe2ce6e0; 0xa3014314; 0x4e0811a1;
   0xf7537e82; 0xbd3af235; 0x2ad7d2bb; 0xeb86d391].

(** The [n] low bytes of [x], least significant first. *)
Definition le_bytes (n : nat) (x : Z) : list Z :=
  map (fun i => Z.land (Z.shiftr x (8 * Z.of_nat i)) 0xff) (seq 0 n).

(** Padding: a 1 bit, zeros up to 56 modulo 64 bytes, the bit length on 64
    bits. *)
Definition pad (msg : list Z) : list Z :=
  let len := Z.of_nat (length msg) in
  let zeros := Z.to_nat ((55 - len) mod 64) in
  msg ++ 0x80 :: replicate zeros 0 ++
  le_bytes 8 (Z.land (8 * len) 0xffffffffffffffff).

Definition word_le (bs : list Z) : Z :=
  foldr (fun b acc => b + 256 * acc) 0 bs.

Fixpoint words (n : nat) (bs : list Z) : list Z :=
  match n with
  | O => []
  | S n' => word_le (take 4 bs) :: words n' (drop 4 bs)
  end.

Definition state : Type := Z * Z * Z * Z.

Definition round (M : list Z) (st : state) (i : nat) : state :=
  let '(A, B, C, D) := st in
  let '(F, g) :=
    if (i <? 16)%nat then
      (Z.lor (Z.land B C) (Z.land (not32 B) D), i)
    else if (i <? 32)%nat then
      (Z.lor (Z.land D B) (Z.land (not32 D) C), (5 * i + 1) mod 16)%nat
    else if (i <? 48)%nat then
      (Z.lxor (Z.lxor B C) D, (3 * i + 5) mod 16)%nat
    else
      (Z.lxor C (Z.lor B (not32 D)), (7 * i) mod 16)%nat in
  let F' := add32 (add32 (add32 F A) (nth i sines 0)) (nth g M 0) in
  (D, add32 B (rotl32 F' (nth i shifts 0)), B, C).

Definition block (st : state) (M : list Z) : state :=
  let '(a0, b0, c0, d0) := st in
  let '(A, B, C, D) := fold_left (round M) (seq 0 64) st in
  (add32 a0 A, add32 b0 B, add32 c0 C, add32 d0 D).

Fixpoint blocks (n : nat) (ws : list Z) (st : state) : state :=
  match n with
  | O => st
  | S n' => blocks n' (drop 16 ws) (block st (take 16 ws))
  end.

Definition digest (msg : list Z) : list Z :=
  let bs := pad msg in
  let nb := (length bs / 64)%nat in
  let '(a, b, c, d) :=
    blocks nb (words (16 * nb) bs)
           (0x67452301, 0xefcdab89, 0x98badcfe, 0x10325476) in
  le_bytes 4 a ++ le_bytes 4 b ++ le_bytes 4 c ++ le_bytes 4 d.

Definition hex_digit (x : Z) : ascii :=
  ascii_of_nat (Z.to_nat (if x <? 10 then 48 + x else 87 + x)).

Definition hex (bs : list Z) : string :=
  foldr (fun b s => String (hex_digit (Z.shiftr b 4))
                      (String (hex_digit (Z.land b 0xf)) s))
        EmptyString bs.

End MD5.

(** [s.encode()]: UTF-8. *)
Definition encode (s : string) : list Z :=
  flat_map (fun c : ascii =>
    let n := Z.of_nat (nat_of_ascii c) in
    if (n <? 128)%Z then [n]
    else [Z.lor 0xc0 (Z.shiftr n 6); Z.lor 0x80 (Z.land n 0x3f)])
    (list_ascii_of_string s).

(** [hashlib.md5(s.encode()).hexdigest()] *)
Definition md5_hexdigest (s : string) : string := MD5.hex (MD5.digest (encode s)).

(** [hashlib.md5(s.encode()).hexdigest()[:16]] *)
Definition md5_16 (s : string) : string := String.substring 0 16 (md5_hexdigest s).

(** ** Data model *)

(** [@dataclass SecurityEvent] *)
Record SecurityEvent := {
  timestamp : string;
  event_type : string;
  source : string;
  severity : string;
  description : string;
  details : gmap string string;
  host : string;
  user : option string;
  process : option string;
  network_info : option (gmap string string);
  file_info : option (gmap string string)
}.

(** [@dataclass SystemMetrics] *)
Record SystemMetrics := {
  metrics_timestamp : string;
  cpu_usage : float;
  memory_usage : float;
  disk_usage : gmap string float;
  network_connections : Z;
  active_processes : Z;
  failed_logins : Z;
  security_alerts : Z;
  compliance_score : float
}.

(** [@dataclass ThreatIndicator] *)
Record ThreatIndicator := {
  indicator_type : string;
  value : string;
  threat_type : string;
  confidence : float;
  first_seen : string;
  last_seen : string;
  count : Z;
  indicator_source : string
}.

(** An entry of [self.baseline_metrics]: the dictionary with the keys
    ['mean'], ['std'], ['min'], ['max']. *)
Record Baseline := {
  mean : float;
  std : float;
  min : pynum;
  max : pynum
}.

(** The four alert dictionaries; the ['type'] key is the constructor. *)
Inductive alert :=
| security_alert (a_timestamp : string) (event : SecurityEvent) (id : string)
| threat_alert (a_timestamp : string) (event : SecurityEvent)
    (threat : ThreatIndicator) (id : string)
| resource_alert (a_timestamp : string) (resource_type : string)
    (a_value : pynum) (mount : option string) (a_description : string)
    (id : string)
| anomaly_alert (a_timestamp : string) (metric_name : string)
    (current_value : float) (baseline : Baseline) (a_severity : string)
    (a_description : string) (id : string).

(** [alert['alert_id']] *)
Definition alert_id (a : alert) : string :=
  match a with
  | security_alert _ _ id | threat_alert _ _ _ id
  | resource_alert _ _ _ _ _ id | anomaly_alert _ _ _ _ _ _ id => id
  end.

(** ** Bounded buffers: [collections.deque(maxlen=n)] *)

Record deque (A : Type) := Deque {
  maxlen : nat;
  items : list A
}.
Arguments Deque {A} maxlen items.
Arguments maxlen {A} d.
Arguments items {A} d.

(** [d.append(x)]: the item goes to the right end; a deque grown past
    [maxlen] drops its leftmost item. Nothing is returned or raised. *)
Definition deque_append {A} (x : A) (d : deque A) : deque A :=
  let grown := items d ++ [x] in
  Deque (maxlen d) (if maxlen d <? length grown then drop 1 grown else grown).

(** [for x in xs: d.append(x)] *)
Definition appends {A} (xs : list A) (d : deque A) : deque A :=
  foldl (fun d x => deque_append x d) d xs.

(** ** The collector: [SecurityAnalyticsCollector] *)

(** The fields of [self] the pipeline works on; of [self.config] only
    [config['export']['syslog']] matters to it. *)
Record collector := Collector {
  export_syslog : bool;
  events_buffer : deque SecurityEvent;
  metrics_buffer : deque SystemMetrics;
  threat_indicators : gmap string ThreatIndicator;
  baseline_metrics : gmap string Baseline
}.

#[local] Set Warnings "-abstract-large-number".

(** [SecurityAnalyticsCollector.__init__] *)
Definition init (syslog : bool) : collector :=
  Collector syslog (Deque 10000 []) (Deque 1000 []) ∅ ∅.

(** What lies outside the process: the clock (the k-th reading of
    [time.time()] and of [datetime.utcnow().isoformat()], and the number of
    readings made so far), the alert log [/var/log/security-alerts.log] (the
    alerts appended, one line each, and the exception appending raises, if
    any), the syslog sink, and the records passed to [logger]. *)
Record world := World {
  time_time : nat -> float;
  utcnow_isoformat : nat -> string;
  ticks : nat;
  alert_log_error : option py_exn;
  alert_log : list alert;
  syslog_sink : list alert;
  log_records : list (string * string)
}.

Definition state : Type := collector * world.

(** Computations on the collector and the world that may raise. *)
Definition M (A : Type) : Type := state -> result A * state.

Definition ret {A} (a : A) : M A := fun s => (Ok a, s).

Definition bind {A B} (m : M A) (k : A -> M B) : M B :=
  fun s =>
    match m s with
    | (Ok a, s') => k a s'
    | (Raise e, s') => (Raise e, s')
    end.

Notation "x <- m ;; k" := (bind m (fun x => k))
  (at level 100, m at next level, right associativity).
Notation "m ;; k" := (bind m (fun _ => k))
  (at level 100, right associativity).

Definition lift {A} (r : result A) : M A := fun s => (r, s).

Definition get_self : M collector := fun s => (Ok (fst s), s).

Definition put_self (self : collector) : M unit := fun s => (Ok tt, (self, snd s)).

Definition get_world : M world := fun s => (Ok (snd s), s).

Definition put_world (w : world) : M unit := fun s => (Ok tt, (fst s, w)).

(** [for x in l: body(x)] *)
Fixpoint for_each {A} (l : list A) (body : A -> M unit) : M unit :=
  match l with
  | [] => ret tt
  | x :: l' => body x ;; for_each l' body
  end.

(** The world after one more clock reading, one more [logger] record, one
    more line in the alert log, one more alert in the syslog sink. *)
Definition tick (w : world) : world :=
  World (time_time w) (utcnow_isoformat w) (S (ticks w)) (alert_log_error w)
        (alert_log w) (syslog_sink w) (log_records w).

Definition logged (level msg : string) (w : world) : world :=
  World (time_time w) (utcnow_isoformat w) (ticks w) (alert_log_error w)
        (alert_log w) (syslog_sink w) (log_records w ++ [(level, msg)]).

Definition appended (a : alert) (w : world) : world :=
  World (time_time w) (utcnow_isoformat w) (ticks w) (alert_log_error w)
        (alert_log w ++ [a]) (syslog_sink w) (log_records w).

Definition forwarded (a : alert) (w : world) : world :=
  World (time_time w) (utcnow_isoformat w) (ticks w) (alert_log_error w)
        (alert_log w) (syslog_sink w ++ [a]) (log_records w).

(** [datetime.utcnow().isoformat()] *)
Definition utcnow : M string :=
  w <- get_world ;; put_world (tick w) ;; ret (utcnow_isoformat w (ticks w)).

(** [time.time()] *)
Definition time : M float :=
  w <- get_world ;; put_world (tick w) ;; ret (time_time w (ticks w)).

(** [logger.<level>(msg)] *)
Definition logger (level msg : string) : M unit :=
  w <- get_world ;; put_world (logged level msg w).

(** [f.write(json.dumps(alert) + '\n')] on the alert log opened for
    appending. *)
Definition write_alert_log (a : alert) : M unit :=
  w <- get_world ;; put_world (appended a w).

(** Modelled from the spec: [_send_syslog_alert], which the source calls and
    does not define; alerts are additionally forwarded to a syslog-style
    sink. *)
Definition _send_syslog_alert (a : alert) : M unit :=
  w <- get_world ;; put_world (forwarded a w).

Definition _export_alert (a : alert) : M unit :=
  (* Log to file *)
  w <- get_world ;;
  match alert_log_error w with
  | None => write_alert_log a
  | Some e => logger "ERROR" ("Failed to write alert to file: " +:+ exn_str e)
  end ;;
  (* Send to syslog if configured *)
  self <- get_self ;;
  if export_syslog self then _send_syslog_alert a else ret tt.

Definition _generate_alert_id (event : SecurityEvent) (prefix : string) : string :=
  let data := prefix +:+ "_" +:+ timestamp event +:+ "_" +:+ event_type event
              +:+ "_" +:+ source event in
  md5_16 data.

Definition _generate_alert (event : SecurityEvent) : M unit :=
  now <- utcnow ;;
  let alert := security_alert now event (_generate_alert_id event "sec") in
  logger "WARNING" ("Security Alert: " +:+ description event) ;;
  _export_alert alert.


(** [f"anomaly_{metric_name}_{int(time.time())}"] at clock reading [t]. *)
Definition anomaly_alert_data (metric_name : string) (t : float) : string :=
  "anomaly_" +:+ metric_name +:+ "_" +:+ pretty (int_of_float t).

(** The ['alert_id'] of an anomaly alert made at clock reading [t]. *)
Definition anomaly_alert_id (metric_name : string) (t : float) : string :=
  md5_16 (anomaly_alert_data metric_name t).

Definition _generate_anomaly_alert (metric_name : string) (current_value : float)
    (baseline : Baseline) (severity : string) : M unit :=
  now <- utcnow ;;
  let description := "Anomaly detected in " +:+ metric_name +:+ ": "
                     +:+ format_2f current_value +:+ " (baseline: "
                     +:+ format_2f (mean baseline) +:+ ")" in
  t <- time ;;
  let alert := anomaly_alert now metric_name current_value baseline severity
                 description (anomaly_alert_id metric_name t) in
  logger "WARNING" ("Anomaly Alert: " +:+ description) ;;
  _export_alert alert.

Section Resource.

(** [str(x)] on a float, the shortest decimal that reads back as [x]. *)
Variable float_repr : float -> string.

(** [str(value)] *)
Definition py_str (a : pynum) : string :=
  match a with
  | PyInt n => pretty n
  | PyFloat x => float_repr x
  end.

(** [f"{resource_type}_{value}_{int(time.time())}"] at clock reading [t]. *)
Definition resource_alert_data (resource_type : string) (value : pynum) (t : float)
  : string :=
  resource_type +:+ "_" +:+ py_str value +:+ "_" +:+ pretty (int_of_float t).

(** The ['alert_id'] of a resource alert made at clock reading [t]. *)
Definition resource_alert_id (resource_type : string) (value : pynum) (t : float)
  : string :=
  md5_16 (resource_alert_data resource_type value t).

Definition _generate_resource_alert (resource_type : string) (value : pynum)
    (mount : option string) : M unit :=
  let description := "High " +:+ resource_type +:+ " usage: " +:+ py_str value +:+ "%" in
  let description :=
    match mount with
    | Some (String c m) => description +:+ " on " +:+ String c m
    | _ => description
    end in
  now <- utcnow ;;
  t <- time ;;
  let alert := resource_alert now resource_type value mount description
                 (resource_alert_id resource_type value t) in
  logger "WARNING" description ;;
  _export_alert alert.

End Resource.


Definition set_threat_indicators (t : gmap string ThreatIndicator) (self : collector)
  : collector :=
  Collector (export_syslog self) (events_buffer self) (metrics_buffer self) t
            (baseline_metrics self).

Definition set_baseline_metrics (b : gmap string Baseline) (self : collector)
  : collector :=
  Collector (export_syslog self) (events_buffer self) (metrics_buffer self)
            (threat_indicators self) b.





(** [self.events_buffer.append(event)] *)
Definition buffer_event (event : SecurityEvent) (self : collector) : collector :=
  Collector (export_syslog self) (deque_append event (events_buffer self))
            (metrics_buffer self) (threat_indicators self) (baseline_metrics self).

(** [self.metrics_buffer.append(system_metrics)] *)
Definition buffer_metrics (m : SystemMetrics) (self : collector) : collector :=
  Collector (export_syslog self) (events_buffer self)
            (deque_append m (metrics_buffer self)) (threat_indicators self)
            (baseline_metrics self).

(** The three columns of [metrics_data], and of [_detect_anomalies]. *)
Definition cpu_values (ms : list SystemMetrics) : list pynum :=
  map (fun m => PyFloat (cpu_usage m)) ms.
Definition memory_values (ms : list SystemMetrics) : list pynum :=
  map (fun m => PyFloat (memory_usage m)) ms.
Definition network_values (ms : list SystemMetrics) : list pynum :=
  map (fun m => PyInt (network_connections m)) ms.

(** [len(values)] *)
Definition py_len {A} (l : list A) : pynum := PyInt (Z.of_nat (length l)).

(** [(x - mean) ** 2] *)
Definition sq_dev (mean : float) (x : pynum) : pynum :=
  let d := (to_float x - mean)%float in PyFloat (d * d)%float.

(** The body of the loop of [_establish_baseline] for one metric.
    [variance ** 0.5] is the square root. *)
Definition baseline_of (values : list pynum) : result Baseline :=
  match py_truediv (py_sum values) (py_len values) with
  | Raise e => Raise e
  | Ok mean =>
    match py_truediv (py_sum (map (sq_dev mean) values)) (py_len values) with
    | Raise e => Raise e
    | Ok variance =>
      let std := PrimFloat.sqrt variance in
      match py_min values, py_max values with
      | Ok lo, Ok hi => Ok {| mean := mean; std := std; min := lo; max := hi |}
      | Raise e, _ | _, Raise e => Raise e
      end
    end
  end.

Definition _establish_baseline : M unit :=
  self <- get_self ;;
  if length (items (metrics_buffer self)) <? 50 then ret tt else
  let recent_metrics := lastn 50 (items (metrics_buffer self)) in
  (* Calculate baselines for key metrics *)
  let metrics_data :=
    [("cpu_usage", cpu_values recent_metrics);
     ("memory_usage", memory_values recent_metrics);
     ("network_connections", network_values recent_metrics)] in
  for_each metrics_data (fun '(metric_name, values) =>
    b <- lift (baseline_of values) ;;
    self <- get_self ;;
    put_self (set_baseline_metrics (<[metric_name := b]> (baseline_metrics self)) self)) ;;
  logger "INFO" "Baseline metrics established".

Definition _check_metric_anomaly (metric_name : string) (values : list pynum)
  : M unit :=
  self <- get_self ;;
  match baseline_metrics self !! metric_name with
  | None => ret tt
  | Some baseline =>
    current_avg <- lift (py_truediv (py_sum values) (py_len values)) ;;
    (* Simple anomaly detection (z-score based) *)
    z_score <- lift (float_truediv (abs (current_avg - mean baseline)) (std baseline)) ;;
    if (2.0 <? z_score)%float then
      let severity := if (3.0 <? z_score)%float then "high" else "medium" in
      _generate_anomaly_alert metric_name current_avg baseline severity
    else ret tt
  end.

Definition _detect_anomalies : M unit :=
  self <- get_self ;;
  let recent_metrics := lastn 10 (items (metrics_buffer self)) in
  (* Calculate baseline if not established *)
  (if bool_decide (baseline_metrics self = ∅) then _establish_baseline else ret tt) ;;
  _check_metric_anomaly "cpu_usage" (cpu_values recent_metrics) ;;
  _check_metric_anomaly "memory_usage" (memory_values recent_metrics) ;;
  _check_metric_anomaly "network_connections" (network_values recent_metrics).

(** One turn of the [while] loop of [_anomaly_detection_loop], up to the
    sleep: an exception ends the turn and is logged. *)
Definition anomaly_detection_turn (s : state) : state :=
  let turn :=
    self <- get_self ;;
    if 10 <=? length (items (metrics_buffer self)) then _detect_anomalies else ret tt in
  match turn s with
  | (Ok _, s') => s'
  | (Raise e, s') => snd (logger "ERROR" ("Anomaly detection error: " +:+ exn_str e) s')
  end.

(** ** The web access parsers *)

(** The host a parser runs on: the k-th reading of
    [datetime.utcnow().isoformat()] in a batch, and [os.uname().nodename]. *)
Record host_env := HostEnv {
  clock : nat -> string;
  nodename : string
}.

(** The [SecurityEvent(...)] the web access parsers build for a line. *)
Definition web_access_event (env : host_env) (source : string) (k : nat)
    (severity line : string) : SecurityEvent :=
  {| timestamp := clock env k;
     event_type := "web_access";
     source := source;
     severity := severity;
     description := "Web access event";
     details := {["log_line" := line]};
     host := nodename env;
     user := None;
     process := None;
     network_info := None;
     file_info := None |}.

(** The loop of [_parse_content] of [ApacheLogParser] and [NginxLogParser],
    which differ by the [source] of their events; [k] clock readings have
    been made. *)
Fixpoint web_events (env : host_env) (source : string) (k : nat)
    (lines : list string) : list SecurityEvent :=
  match lines with
  | [] => []
  | line :: rest =>
    match line with
    | EmptyString => web_events env source k rest
    | _ =>
      if existsb (fun status => contains status line) [" 403 "; " 404 "; " 500 "] then
        let severity := if contains " 403 " line then "medium" else "low" in
        web_access_event env source k severity line :: web_events env source (S k) rest
      else web_events env source k rest
    end
  end.

Module ApacheLogParser.
Definition _parse_content (env : host_env) (content : string) : list SecurityEvent :=
  web_events env "apache_log" 0 (split newline (strip content)).
End ApacheLogParser.

Module NginxLogParser.
Definition _parse_content (env : host_env) (content : string) : list SecurityEvent :=
  web_events env "nginx_log" 0 (split newline (strip content)).
End NginxLogParser.

(** The world after [_export_alert a]. *)
Definition exported (syslog : bool) (a : alert) (w : world) : world :=
  let w1 :=
    match alert_log_error w with
    | None => appended a w
    | Some e => logged "ERROR" ("Failed to write alert to file: " +:+ exn_str e) w
    end in
  if syslog then forwarded a w1 else w1.

(** The alert [_generate_threat_alert] builds in world [w], and the world
    after it. *)
Definition threat_alert_in (w : world) (event : SecurityEvent)
    (threat : ThreatIndicator) : alert :=
  threat_alert (utcnow_isoformat w (ticks w)) event threat
               (_generate_alert_id event "threat").


(** The alerts [_generate_alert], [_generate_anomaly_alert] and
    [_generate_resource_alert] build in world [w]. *)
Definition security_alert_in (w : world) (event : SecurityEvent) : alert :=
  security_alert (utcnow_isoformat w (ticks w)) event (_generate_alert_id event "sec").

Definition anomaly_description (metric_name : string) (current_value : float)
    (baseline : Baseline) : string :=
  "Anomaly detected in " +:+ metric_name +:+ ": " +:+ format_2f current_value
  +:+ " (baseline: " +:+ format_2f (mean baseline) +:+ ")".

Definition anomaly_alert_in (w : world) (metric_name : string)
    (current_value : float) (baseline : Baseline) (severity : string) : alert :=
  anomaly_alert (utcnow_isoformat w (ticks w)) metric_name current_value baseline
    severity (anomaly_description metric_name current_value baseline)
    (anomaly_alert_id metric_name (time_time w (S (ticks w)))).

Definition anomaly_alerted (syslog : bool) (metric_name : string)
    (current_value : float) (baseline : Baseline) (severity : string) (w : world)
  : world :=
  exported syslog (anomaly_alert_in w metric_name current_value baseline severity)
    (logged "WARNING"
       ("Anomaly Alert: " +:+ anomaly_description metric_name current_value baseline)
       (tick (tick w))).

Definition resource_description (float_repr : float -> string)
    (resource_type : string) (value : pynum) (mount : option string) : string :=
  let description :=
    "High " +:+ resource_type +:+ " usage: " +:+ py_str float_repr value +:+ "%" in
  match mount with
  | Some (String c m) => description +:+ " on " +:+ String c m
  | _ => description
  end.

Definition resource_alert_in (float_repr : float -> string) (w : world)
    (resource_type : string) (value : pynum) (mount : option string) : alert :=
  resource_alert (utcnow_isoformat w (ticks w)) resource_type value mount
    (resource_description float_repr resource_type value mount)
    (resource_alert_id float_repr resource_type value (time_time w (S (ticks w)))).

(** The world [w] with every clock reading [dt] seconds later. *)
Definition later (dt : float) (w : world) : world :=
  World (fun k => (time_time w k + dt)%float) (utcnow_isoformat w) (ticks w)
        (alert_log_error w) (alert_log w) (syslog_sink w) (log_records w).



(** An event, a threat indicator and a world for the examples. *)
Definition probe : SecurityEvent :=
  {| timestamp := "2026-11-04T10:00:00.250000";
     event_type := "authentication_failure";
     source := "auth_log";
     severity := "medium";
     description := "Failed password authentication";
     details := {["log_line" := "Failed password for root from 203.0.113.9 port 22"]};
     host := "web01";
     user := None;
     process := None;
     network_info := Some {["source_ip" := "203.0.113.9"]};
     file_info := None |}.


Definition quiet : world :=
  World (fun k => (1793786400.25 + PrimFloat.of_uint63 (Uint63.of_Z (Z.of_nat k)))%float)
        (fun k => "2026-11-04T10:00:0" +:+ pretty k) 0 None [] [] [].

Definition steady : Baseline :=
  {| mean := 50; std := 5; min := PyFloat 40; max := PyFloat 60 |}.

Definition busy : Baseline :=
  {| mean := 60; std := 2.5; min := PyFloat 55; max := PyFloat 65 |}.


(** A collector whose only baseline is [b], for [metric_name]. *)
Definition watching (metric_name : string) (b : Baseline) : collector :=
  set_baseline_metrics {[metric_name := b]} (init false).

(** A sample of an idle host, and a collector that has buffered it 50
    times. *)
Definition idle : SystemMetrics :=
  {| metrics_timestamp := "2026-11-04T09:00:00";
     cpu_usage := 5;
     memory_usage := 40;
     disk_usage := ∅;
     network_connections := 12;
     active_processes := 90;
     failed_logins := 0;
     security_alerts := 0;
     compliance_score := 85 |}.

Definition idling : collector :=
  foldl (fun self m => buffer_metrics m self) (init false) (replicate 50 idle).

(** A host for the examples. *)
Definition web01 : host_env := HostEnv (fun k => "2026-11-04T10:00:0" +:+ pretty k) "web01".








(** [sub] occurs in [s]. *)
Definition occurs (sub s : string) : Prop := exists a b, s = a +:+ sub +:+ b.

(** The classification table of the web access parsers, read top down. *)
Definition web_severity (line : string) : option string :=
  if contains " 403 " line then Some "medium"
  else if contains " 404 " line || contains " 500 " line then Some "low"
  else None.

(** ** The other parsers *)

(** [BaseLogParser._parse_content]: left to the subclasses. *)
Module BaseLogParser.
Definition _parse_content (content : string) : result (list SecurityEvent) :=
  Raise (PyExn "NotImplementedError" "").
End BaseLogParser.

(** [c.lower()] on the first 256 code points: the Latin capitals, the
    multiplication sign apart. *)
Definition lower_char (c : ascii) : ascii :=
  let n := nat_of_ascii c in
  if ((65 <=? n) && (n <=? 90)) ||
     ((192 <=? n) && (n <=? 222) && negb (n =? 215))
  then ascii_of_nat (n + 32) else c.

(** [s.lower()] *)
Fixpoint lower (s : string) : string :=
  match s with
  | EmptyString => EmptyString
  | String c s' => String (lower_char c) (lower s')
  end.

(** [s.startswith(prefix)] *)
Definition startswith (prefix s : string) : bool := String.prefix prefix s.

(** The [SecurityEvent(...)] a parser builds for a line at its k-th reading
    of the clock. *)
Definition line_event (env : host_env) (k : nat)
    (event_type source severity description line : string) : SecurityEvent :=
  {| timestamp := clock env k;
     event_type := event_type;
     source := source;
     severity := severity;
     description := description;
     details := {["log_line" := line]};
     host := nodename env;
     user := None;
     process := None;
     network_info := None;
     file_info := None |}.

Module AuthLogParser.

Fixpoint events (env : host_env) (k : nat) (lines : list string) : list SecurityEvent :=
  match lines with
  | [] => []
  | line :: rest =>
    match line with
    | EmptyString => events env k rest
    | _ =>
      (* Parse auth log entries *)
      if contains "Failed password" line then
        line_event env k "authentication_failure" "auth_log" "medium"
                   "Failed password authentication" line
        :: events env (S k) rest
      else if contains "Accepted password" line then
        line_event env k "authentication_success" "auth_log" "info"
                   "Successful password authentication" line
        :: events env (S k) rest
      else events env k rest
    end
  end.

Definition _parse_content (env : host_env) (content : string) : list SecurityEvent :=
  events env 0 (split newline (strip content)).

End AuthLogParser.

Module SyslogParser.

Fixpoint events (env : host_env) (k : nat) (lines : list string) : list SecurityEvent :=
  match lines with
  | [] => []
  | line :: rest =>
    match line with
    | EmptyString => events env k rest
    | _ =>
      (* Parse syslog entries for security events *)
      if existsb (fun keyword => contains keyword (lower line))
                 ["error"; "warning"; "critical"; "alert"] then
        let severity :=
          if existsb (fun kw => contains kw (lower line)) ["critical"; "alert"]
          then "high" else "medium" in
        line_event env k "system_event" "syslog" severity "System log event" line
        :: events env (S k) rest
      else events env k rest
    end
  end.

Definition _parse_content (env : host_env) (content : string) : list SecurityEvent :=
  events env 0 (split newline (strip content)).

End SyslogParser.

Module AuditLogParser.

Fixpoint events (env : host_env) (k : nat) (lines : list string) : list SecurityEvent :=
  match lines with
  | [] => []
  | line :: rest =>
    if match line with EmptyString => true | _ => false end
       || negb (startswith "type=" line)
    then events env k rest
    else
      (* Parse audit records *)
      if contains "type=SYSCALL" line then
        line_event env k "system_call" "audit_log" "info" "System call audit event" line
        :: events env (S k) rest
      else events env k rest
  end.

Definition _parse_content (env : host_env) (content : string) : list SecurityEvent :=
  events env 0 (split newline (strip content)).

End AuditLogParser.

(** What a parser makes of one line: nothing, or the type, the source, the
    severity and the description of one event. *)
Definition verdict : Type := option (string * string * string * string).

Definition auth_verdict (line : string) : verdict :=
  if contains "Failed password" line then
    Some ("authentication_failure", "auth_log", "medium", "Failed password authentication")
  else if contains "Accepted password" line then
    Some ("authentication_success", "auth_log", "info",
          "Successful password authentication")
  else None.

Definition syslog_verdict (line : string) : verdict :=
  let l := lower line in
  if contains "critical" l || contains "alert" l then
    Some ("system_event", "syslog", "high", "System log event")
  else if contains "error" l || contains "warning" l then
    Some ("system_event", "syslog", "medium", "System log event")
  else None.

Definition audit_verdict (line : string) : verdict :=
  if startswith "type=" line && contains "type=SYSCALL" line then
    Some ("system_call", "audit_log", "info", "System call audit event")
  else None.

Definition web_verdict (source : string) (line : string) : verdict :=
  (fun severity => ("web_access", source, severity, "Web access event"))
    <$> web_severity line.

(** The events of the lines a verdict is given on, in the order of the
    lines, each stamped with the next reading of the clock. *)
Fixpoint events_of (judge : string -> verdict) (env : host_env) (k : nat)
    (lines : list string) : list SecurityEvent :=
  match lines with
  | [] => []
  | line :: rest =>
    match line, judge line with
    | String _ _, Some (event_type, source, severity, description) =>
      line_event env k event_type source severity description line
      :: events_of judge env (S k) rest
    | _, _ => events_of judge env k rest
    end
  end.

(** [e.details['log_line']] *)
Definition log_line (e : SecurityEvent) : option string := details e !! "log_line".

(** [self.log_parsers], in the order of the dictionary: each parser's
    [_parse_content], with the verdict it gives on a line. *)
Definition log_parsers
  : list (string * ((host_env -> string -> list SecurityEvent) * (string -> verdict))) :=
  [("auth", (AuthLogParser._parse_content, auth_verdict));
   ("syslog", (SyslogParser._parse_content, syslog_verdict));
   ("audit", (AuditLogParser._parse_content, audit_verdict));
   ("apache", (ApacheLogParser._parse_content, web_verdict "apache_log"));
   ("nginx", (NginxLogParser._parse_content, web_verdict "nginx_log"))].

(** A text of white space only. *)
Fixpoint blank (s : string) : bool :=
  match s with
  | EmptyString => true
  | String c s' => isspace c && blank s'
  end.

(** ** Configuration *)







Definition KeyError (key : string) : py_exn := PyExn "KeyError" ("'" +:+ key +:+ "'").

(** [d[key]] *)
Definition subscript {V} (d : gmap string V) (key : string) : result V :=
  match d !! key with
  | Some v => Ok v
  | None => Raise (KeyError key)
  end.

(** ** Resource alerts: [_analyze_metrics] *)

Section Analysis.

Variable float_repr : float -> string.

(** [thresholds] is [self.config['thresholds']]; [mounts] lists the keys of
    [metrics.disk_usage] in the order of the dictionary. *)
Definition _analyze_metrics (thresholds : gmap string pynum) (mounts : list string)
    (metrics : SystemMetrics) : M unit :=
  (* Check resource utilization *)
  cpu_high <- lift (subscript thresholds "cpu_high") ;;
  (if py_lt cpu_high (PyFloat (cpu_usage metrics))
   then _generate_resource_alert float_repr "cpu" (PyFloat (cpu_usage metrics)) None
   else ret tt) ;;
  memory_high <- lift (subscript thresholds "memory_high") ;;
  (if py_lt memory_high (PyFloat (memory_usage metrics))
   then _generate_resource_alert float_repr "memory" (PyFloat (memory_usage metrics)) None
   else ret tt) ;;
  (* Check disk usage *)
  for_each mounts (fun mount =>
    match disk_usage metrics !! mount with
    | Some usage =>
      disk_high <- lift (subscript thresholds "disk_high") ;;
      if py_lt disk_high (PyFloat usage)
      then _generate_resource_alert float_repr "disk" (PyFloat usage) (Some mount)
      else ret tt
    | None => ret tt
    end) ;;
  (* Check network connections *)
  network_connections_high <- lift (subscript thresholds "network_connections_high") ;;
  if py_lt network_connections_high (PyInt (network_connections metrics))
  then _generate_resource_alert float_repr "network"
         (PyInt (network_connections metrics)) None
  else ret tt.

End Analysis.




(** ** A turn of the log collection loop *)
















(** ** The metric collectors *)

(** What [psutil] answers during one collection, each the value or the
    exception raised: [psutil.cpu_percent(interval=1)]; the [percent] of
    [psutil.virtual_memory()]; the partitions of [psutil.disk_partitions()],
    each with its mount point and with the numbers of bytes [used] and
    [total] of [psutil.disk_usage(mountpoint)]; the lengths of
    [psutil.pids()] and of [psutil.net_connections()]. *)
Record psutil := Psutil {
  cpu_percent : result float;
  virtual_memory_percent : result float;
  disk_partitions : result (list (string * result (Z * Z)));
  pids : result nat;
  net_connections : result nat
}.

(** The dictionary [metrics] of [_metric_collection_loop], and those the
    collectors return: each of the eight keys, when it is present.
    [disk_usage] is itself a dictionary, kept in the order of insertion. *)
Record metrics_dict := MetricsDict {
  d_cpu_usage : option float;
  d_memory_usage : option float;
  d_disk_usage : option (list (string * float));
  d_active_processes : option Z;
  d_network_connections : option Z;
  d_failed_logins : option Z;
  d_security_alerts : option Z;
  d_compliance_score : option float
}.

(** [{}] *)
Definition empty_dict : metrics_dict :=
  MetricsDict None None None None None None None None.

(** [metrics.update(collector_metrics)] *)
Definition update (metrics collector_metrics : metrics_dict) : metrics_dict :=
  let put {A} (new old : option A) : option A :=
    match new with Some v => Some v | None => old end in
  {| d_cpu_usage := put (d_cpu_usage collector_metrics) (d_cpu_usage metrics);
     d_memory_usage := put (d_memory_usage collector_metrics) (d_memory_usage metrics);
     d_disk_usage := put (d_disk_usage collector_metrics) (d_disk_usage metrics);
     d_active_processes :=
       put (d_active_processes collector_metrics) (d_active_processes metrics);
     d_network_connections :=
       put (d_network_connections collector_metrics) (d_network_connections metrics);
     d_failed_logins := put (d_failed_logins collector_metrics) (d_failed_logins metrics);
     d_security_alerts :=
       put (d_security_alerts collector_metrics) (d_security_alerts metrics);
     d_compliance_score :=
       put (d_compliance_score collector_metrics) (d_compliance_score metrics) |}.

(** [d[k] = v] on a dictionary in the order of insertion: a key already
    there keeps its place. *)
Fixpoint dict_set {V} (k : string) (v : V) (d : list (string * V)) : list (string * V) :=
  match d with
  | [] => [(k, v)]
  | (k', v') :: d' =>
    if decide (k = k') then (k, v) :: d' else (k', v') :: dict_set k v d'
  end.

(** [(usage.used / usage.total) * 100] *)
Definition disk_percent (usage : Z * Z) : result float :=
  match py_truediv (PyInt (fst usage)) (PyInt (snd usage)) with
  | Ok ratio => Ok (ratio * 100)%float
  | Raise e => Raise e
  end.

(** The loop over the partitions: a partition whose usage cannot be read or
    computed is passed over. *)
Fixpoint disk_usages (partitions : list (string * result (Z * Z)))
    (disk_usage : list (string * float)) : list (string * float) :=
  match partitions with
  | [] => disk_usage
  | (mountpoint, usage) :: rest =>
    match usage with
    | Ok usage =>
      match disk_percent usage with
      | Ok percent => disk_usages rest (dict_set mountpoint percent disk_usage)
      | Raise _ => disk_usages rest disk_usage
      end
    | Raise _ => disk_usages rest disk_usage
    end
  end.

Module SystemMetricCollector.
Definition collect_metrics (ps : psutil) : M metrics_dict :=
  let attempt : result metrics_dict :=
    match cpu_percent ps with
    | Raise e => Raise e
    | Ok cpu_usage =>
      match virtual_memory_percent ps with
      | Raise e => Raise e
      | Ok memory_percent =>
        match disk_partitions ps with
        | Raise e => Raise e
        | Ok partitions =>
          let disk_usage := disk_usages partitions [] in
          match pids ps with
          | Raise e => Raise e
          | Ok pids =>
            Ok {| d_cpu_usage := Some cpu_usage;
                  d_memory_usage := Some memory_percent;
                  d_disk_usage := Some disk_usage;
                  d_active_processes := Some (Z.of_nat pids);
                  d_network_connections := None;
                  d_failed_logins := None;
                  d_security_alerts := None;
                  d_compliance_score := None |}
          end
        end
      end
    end in
  match attempt with
  | Ok d => ret d
  | Raise e =>
    logger "ERROR" ("System metrics collection failed: " +:+ exn_str e) ;;
    ret empty_dict
  end.
End SystemMetricCollector.

Module NetworkMetricCollector.
Definition collect_metrics (ps : psutil) : M metrics_dict :=
  match net_connections ps with
  | Ok connections =>
    ret {| d_cpu_usage := None;
           d_memory_usage := None;
           d_disk_usage := None;
           d_active_processes := None;
           d_network_connections := Some (Z.of_nat connections);
           d_failed_logins := None;
           d_security_alerts := None;
           d_compliance_score := None |}
  | Raise e =>
    logger "ERROR" ("Network metrics collection failed: " +:+ exn_str e) ;;
    ret empty_dict
  end.
End NetworkMetricCollector.

Module SecurityMetricCollector.
Definition collect_metrics : M metrics_dict :=
  (* Placeholder for security metrics *)
  ret {| d_cpu_usage := None;
         d_memory_usage := None;
         d_disk_usage := None;
         d_active_processes := None;
         d_network_connections := None;
         d_failed_logins := Some 0%Z;
         d_security_alerts := Some 0%Z;
         d_compliance_score := None |}.
End SecurityMetricCollector.

Module ComplianceMetricCollector.
Definition collect_metrics : M metrics_dict :=
  (* Placeholder for compliance metrics *)
  ret {| d_cpu_usage := None;
         d_memory_usage := None;
         d_disk_usage := None;
         d_active_processes := None;
         d_network_connections := None;
         d_failed_logins := None;
         d_security_alerts := None;
         d_compliance_score := Some 85%float |}.
End ComplianceMetricCollector.

(** ** A turn of the metric collection loop *)

(** [SystemMetrics(timestamp=now, cpu_usage=metrics.get('cpu_usage', 0.0), ...)] *)
Definition snapshot (now : string) (metrics : metrics_dict) : SystemMetrics :=
  {| metrics_timestamp := now;
     cpu_usage := default 0%float (d_cpu_usage metrics);
     memory_usage := default 0%float (d_memory_usage metrics);
     disk_usage := list_to_map (default [] (d_disk_usage metrics));
     network_connections := default 0%Z (d_network_connections metrics);
     active_processes := default 0%Z (d_active_processes metrics);
     failed_logins := default 0%Z (d_failed_logins metrics);
     security_alerts := default 0%Z (d_security_alerts metrics);
     compliance_score := default 0%float (d_compliance_score metrics) |}.

Section MetricTurn.

Variable float_repr : float -> string.

(** The body of the [try] block up to the sleep. [thresholds] is
    [self.config['thresholds']]. *)
Definition collect_and_analyze (thresholds : gmap string pynum) (ps : psutil) : M unit :=
  system <- SystemMetricCollector.collect_metrics ps ;;
  network <- NetworkMetricCollector.collect_metrics ps ;;
  security <- SecurityMetricCollector.collect_metrics ;;
  compliance <- ComplianceMetricCollector.collect_metrics ;;
  let metrics := update (update (update (update empty_dict system) network) security)
                        compliance in
  (* Create system metrics object *)
  now <- utcnow ;;
  let system_metrics := snapshot now metrics in
  self <- get_self ;;
  put_self (buffer_metrics system_metrics self) ;;
  _analyze_metrics float_repr thresholds (default [] (d_disk_usage metrics)).*1
                   system_metrics.

(** One turn of the [while] loop of [_metric_collection_loop], up to the
    sleep: an exception ends the turn and is logged. *)
Definition metric_collection_turn (thresholds : gmap string pynum) (ps : psutil)
    (s : state) : state :=
  match collect_and_analyze thresholds ps s with
  | (Ok _, s') => s'
  | (Raise e, s') => snd (logger "ERROR" ("Metrics collection error: " +:+ exn_str e) s')
  end.

End MetricTurn.

(** The percentages of the partitions that can be measured. *)
Definition measured (partitions : list (string * result (Z * Z))) : list (string * float) :=
  omap (fun '(mountpoint, usage) =>
          match usage with
          | Ok (used, total) =>
            if (total =? 0)%Z then None
            else Some (mountpoint, (float_of_Z used / float_of_Z total * 100)%float)
          | Raise _ => None
          end) partitions.

(** The first of the readings of the system collector that fails, if any. *)
Definition system_failure (ps : psutil) : option py_exn :=
  match cpu_percent ps, virtual_memory_percent ps, disk_partitions ps, pids ps with
  | Raise e, _, _, _ => Some e
  | _, Raise e, _, _ => Some e
  | _, _, Raise e, _ => Some e
  | _, _, _, Raise e => Some e
  | _, _, _, _ => None
  end.

(** A host on which [psutil] works. *)
Definition healthy : psutil :=
  {| cpu_percent := Ok 12.5%float;
     virtual_memory_percent := Ok 40%float;
     disk_partitions :=
       Ok [("/", Ok (30, 40)%Z); ("/proc", Ok (0, 0)%Z);
           ("/mnt/backup", Raise PermissionError); ("/boot", Ok (1, 4)%Z)];
     pids := Ok 90;
     net_connections := Ok 12 |}.



(** * Properties *)

(** ** Bounded buffers *)

Section Deque.

Context {A : Type}.
Implicit Types (d : deque A) (x : A) (xs : list A).

Lemma deque_append_maxlen x d : maxlen (deque_append x d) = maxlen d.
Proof. reflexivity. Qed.

Lemma appends_maxlen xs d : maxlen (appends xs d) = maxlen d.
Proof.
  revert d. induction xs as [|x xs IH]; intros d; [reflexivity|].
  cbn. unfold appends in IH. rewrite IH. apply deque_append_maxlen.
Qed.

Lemma deque_append_items x d :
  length (items d) <= maxlen d ->
  items (deque_append x d) = lastn (maxlen d) (items d ++ [x]).
Proof.
  intros Hle. unfold deque_append, lastn. cbn [items].
  rewrite length_app. cbn [length].
  destruct (Nat.ltb_spec (maxlen d) (length (items d) + 1)) as [Hlt|Hge].
  - replace (length (items d) + 1 - maxlen d) with 1 by lia. reflexivity.
  - replace (length (items d) + 1 - maxlen d) with 0 by lia. reflexivity.
Qed.

Lemma deque_append_bounded x d :
  length (items d) <= maxlen d ->
  length (items (deque_append x d)) <= maxlen (deque_append x d).
Proof.
  intros Hle. rewrite deque_append_items by exact Hle.
  rewrite deque_append_maxlen. unfold lastn.
  rewrite length_drop, length_app. cbn [length]. lia.
Qed.

Lemma appends_items xs d :
  length (items d) <= maxlen d ->
  items (appends xs d) = lastn (maxlen d) (items d ++ xs).
Proof.
  revert d. induction xs as [|x xs IH]; intros d Hle.
  - cbn. rewrite app_nil_r. unfold lastn.
    replace (length (items d) - maxlen d) with 0 by lia. reflexivity.
  - change (appends (x :: xs) d) with (appends xs (deque_append x d)).
    rewrite IH by (apply deque_append_bounded; exact Hle).
    rewrite deque_append_maxlen, deque_append_items by exact Hle.
    unfold lastn. rewrite <- drop_app_le by lia.
    rewrite drop_drop, <- app_assoc. cbn [app].
    f_equal. rewrite !length_app, length_drop, !length_app. cbn [length]. lia.
Qed.

End Deque.

(** C7. The event buffer holds at most 10000 entries and the metrics buffer
    at most 1000; after more than [C] appends to an empty buffer of capacity
    [C], the buffer holds the [C] most recent entries, oldest first, and
    [append] is total: it returns the buffer and nothing else. *)
Theorem bounded_buffers_keep_most_recent :
  (forall syslog,
     events_buffer (init syslog) = Deque 10000 [] /\
     metrics_buffer (init syslog) = Deque 1000 []) /\
  (forall (A : Type) (C : nat) (xs : list A),
     C < length xs ->
     appends xs (Deque C []) = Deque C (drop (length xs - C) xs)) /\
  (forall (self : collector) (es : list SecurityEvent),
     length (items (events_buffer self)) <= maxlen (events_buffer self) ->
     items (events_buffer (foldl (fun s e => buffer_event e s) self es)) =
     lastn (maxlen (events_buffer self)) (items (events_buffer self) ++ es)) /\
  (forall (self : collector) (ms : list SystemMetrics),
     length (items (metrics_buffer self)) <= maxlen (metrics_buffer self) ->
     items (metrics_buffer (foldl (fun s m => buffer_metrics m s) self ms)) =
     lastn (maxlen (metrics_buffer self)) (items (metrics_buffer self) ++ ms)).
Proof.
  split; [intros; split; reflexivity|]. split; [|split].
  - intros A C xs _.
    pose proof (appends_items xs (Deque C [])) as Hi.
    pose proof (appends_maxlen xs (Deque C [])) as Hm.
    destruct (appends xs (Deque C [])) as [m its]. cbn in *.
    rewrite Hm, Hi by lia. reflexivity.
  - intros self es Hle.
    assert (Hfold : forall s, events_buffer (foldl (fun s e => buffer_event e s) s es)
                              = appends es (events_buffer s)).
    { induction es as [|e es IH]; intros s; [reflexivity|]. cbn. rewrite IH. reflexivity. }
    rewrite Hfold. apply appends_items. exact Hle.
  - intros self ms Hle.
    assert (Hfold : forall s, metrics_buffer (foldl (fun s m => buffer_metrics m s) s ms)
                              = appends ms (metrics_buffer s)).
    { induction ms as [|m ms IH]; intros s; [reflexivity|]. cbn. rewrite IH. reflexivity. }
    rewrite Hfold. apply appends_items. exact Hle.
Qed.

Lemma bounded_buffers_keep_most_recent_witness :
  appends [1; 2; 3; 4; 5] (Deque 2 []) = Deque 2 [4; 5].
Proof.
  exact (proj1 (proj2 bounded_buffers_keep_most_recent) nat 2 [1; 2; 3; 4; 5]
               ltac:(cbn; lia)).
Defined.

(** ** Strings *)

Lemma append_cons c a b : String c a +:+ b = String c (a +:+ b).
Proof. reflexivity. Qed.

Lemma append_nil_r s : s +:+ "" = s.
Proof. induction s as [|c s IH]; [reflexivity|]. rewrite append_cons, IH. reflexivity. Qed.

Lemma append_assoc a b c : (a +:+ b) +:+ c = a +:+ b +:+ c.
Proof.
  induction a as [|x a IH]; [reflexivity|]. rewrite !append_cons, IH. reflexivity.
Qed.

Lemma length_append a b :
  String.length (a +:+ b) = String.length a + String.length b.
Proof.
  induction a as [|x a IH]; [reflexivity|]. rewrite append_cons. cbn. rewrite IH. reflexivity.
Qed.

Lemma sdrop_0 s : sdrop 0 s = s.
Proof. destruct s; reflexivity. Qed.

Lemma sdrop_length_append a b : sdrop (String.length a) (a +:+ b) = b.
Proof.
  induction a as [|x a IH]; [apply sdrop_0|]. rewrite append_cons. cbn. exact IH.
Qed.

Lemma sdrop_all s n : String.length s <= n -> sdrop n s = "".
Proof.
  revert n. induction s as [|c s IH]; intros [|n] Hn; cbn in *; try reflexivity; try lia.
  apply IH. lia.
Qed.

Lemma prefix_append a b :
  String.prefix a b = true -> b = a +:+ sdrop (String.length a) b.
Proof.
  revert b. induction a as [|x a IH]; intros b Hp.
  - destruct b; reflexivity.
  - destruct b as [|y b]; [discriminate|]. cbn in Hp.
    destruct (ascii_dec x y) as [->|]; [|discriminate].
    rewrite append_cons. cbn. f_equal. apply IH. exact Hp.
Qed.

Lemma prefix_length a b : String.prefix a b = true -> String.length a <= String.length b.
Proof.
  intros Hp. rewrite (prefix_append a b Hp), length_append. lia.
Qed.

Lemma last_cons {A} (x d : A) (l : list A) : List.last (x :: l) d = List.last l x.
Proof.
  revert x d. induction l as [|y l IH]; intros x d; [reflexivity|].
  change (List.last (x :: y :: l) d) with (List.last (y :: l) d).
  rewrite (IH y d), (IH y x). reflexivity.
Qed.

(** ** The log tailer *)

Module TailerFacts.
Import Tailer.

(** A successful call reads from the stored offset, or from 0 when the
    stored inode is not the file's. *)
Lemma read_new_content_readable st ino data :
  cursor_wf st -> ino <> 0%Z ->
  read_new_content (readable ino data) st =
  let start := if decide (last_inode st = Some ino) then last_position st else 0 in
  (Ok (sdrop start data), Cursor (Nat.max start (String.length data)) (Some ino)).
Proof.
  destruct st as [p [j|]]; unfold cursor_wf; cbn; intros Hwf Hino.
  - destruct (Z.eqb_spec j 0) as [->|_]; [contradiction|]. cbn.
    destruct (Z.eqb_spec ino j) as [->|Hne]; cbn.
    + rewrite decide_True by reflexivity. reflexivity.
    + rewrite decide_False by congruence. reflexivity.
  - subst p. reflexivity.
Qed.

Lemma read_new_content_wf fv st r st' :
  cursor_wf st -> (forall ino, os_stat fv = Ok ino -> ino <> 0%Z) ->
  read_new_content fv st = (r, st') -> cursor_wf st'.
Proof.
  intros Hwf Hino. unfold read_new_content.
  destruct (os_stat fv) as [ino|e] eqn:Hs; [|intros [= <- <-]; exact Hwf].
  specialize (Hino ino eq_refl).
  destruct (open_read fv) as [data|e]; intros [= <- <-]; exact Hino.
Qed.

Lemma run_app st obs1 obs2 :
  run st (obs1 ++ obs2) =
  let '(c1, st1) := run st obs1 in
  let '(c2, st2) := run st1 obs2 in (c1 ++ c2, st2).
Proof.
  revert st. induction obs1 as [|[ino data] obs1 IH]; intros st; cbn [run app].
  - destruct (run st obs2). reflexivity.
  - destruct (read_new_content (readable ino data) st) as [[chunk|e] st1].
    + rewrite IH. destruct (run st1 obs1) as [c1 st2].
      destruct (run st2 obs2). reflexivity.
    + apply IH.
Qed.

(** While the file keeps its inode and grows, the calls deliver what was
    appended, and the offset follows the end of the file. *)
Lemma run_in_sync ino d0 datas :
  ino <> 0%Z -> growing (d0 :: datas) ->
  exists chunks,
    run (Cursor (String.length d0) (Some ino)) (calls (ino, datas)) =
      (chunks, Cursor (String.length (List.last datas d0)) (Some ino)) /\
    d0 +:+ join chunks = List.last datas d0.
Proof.
  intros Hino. revert d0. induction datas as [|d1 datas IH]; intros d0 Hg.
  - exists []. cbn. rewrite append_nil_r. split; reflexivity.
  - destruct Hg as [Hp Hg]. destruct (IH d1 Hg) as (chunks & Hrun & Hcat).
    exists (sdrop (String.length d0) d1 :: chunks).
    unfold calls in *. cbn [map fst snd run] in *.
    rewrite read_new_content_readable by (cbn; assumption).
    cbn [last_inode last_position]. rewrite decide_True by reflexivity. cbn zeta.
    rewrite Nat.max_r by (apply prefix_length; exact Hp).
    rewrite Hrun. split.
    + rewrite last_cons. reflexivity.
    + rewrite last_cons, <- Hcat. cbn [join foldr].
      rewrite (prefix_append d0 d1 Hp) at 2.
      rewrite append_assoc. reflexivity.
Qed.

(** The calls made on a file that has just appeared at the path deliver its
    text from the start. *)
Lemma run_segment st ino datas :
  cursor_wf st -> ino <> 0%Z -> last_inode st <> Some ino ->
  datas <> [] -> growing datas ->
  exists chunks,
    run st (calls (ino, datas)) =
      (chunks, Cursor (String.length (List.last datas "")) (Some ino)) /\
    join chunks = List.last datas "".
Proof.
  intros Hwf Hino Hne Hnil Hg. destruct datas as [|d0 datas]; [contradiction|].
  destruct (run_in_sync ino d0 datas Hino Hg) as (chunks & Hrun & Hcat).
  exists (d0 :: chunks). unfold calls in *. cbn [map fst snd run] in *.
  rewrite read_new_content_readable by assumption.
  rewrite decide_False by exact Hne. cbn zeta.
  rewrite sdrop_0, Nat.max_0_l, Hrun, last_cons. split; [reflexivity|exact Hcat].
Qed.

Lemma delivered_exact h st :
  cursor_wf st ->
  match h with (ino, _) :: _ => last_inode st <> Some ino | [] => True end ->
  history_ok h ->
  delivered st h = map final_text h.
Proof.
  revert st. induction h as [|[ino datas] h IH]; intros st Hwf Hne Hok; [reflexivity|].
  destruct Hok as (Hino & Hnil & Hg & Hnext & Hok).
  destruct (run_segment st ino datas Hwf Hino Hne Hnil Hg) as (chunks & Hrun & Hcat).
  cbn [delivered map]. rewrite Hrun, Hcat. f_equal.
  apply IH; [exact Hino| |exact Hok].
  destruct h as [|[ino' datas'] h]; [exact I|]. cbn. congruence.
Qed.

(** C1, as the code has it. A successful call on a file whose inode number
    is not 0 stores the inode; when the stored inode is another one it reads
    from offset 0, and otherwise from the stored offset; when the file is at
    least as long as that offset, the parser receives exactly the text from
    there to the end and the offset becomes the length of the file. Over
    any sequence of successful calls on files that only grow while they keep
    their inode, the texts delivered while a file is at the path put end to
    end are the text of that file as last seen: nothing twice, nothing
    skipped. *)
Theorem tail_delivers_appended_text :
  (forall (event : Type) (parse : string -> result (list event)) path st ino data events,
     cursor_wf st -> ino <> 0%Z ->
     (last_inode st = Some ino -> last_position st <= String.length data) ->
     let start := if decide (last_inode st = Some ino) then last_position st else 0 in
     parse (sdrop start data) = Ok events ->
     parse_new_events parse path (readable ino data) st =
       (events, Cursor (String.length data) (Some ino), [])) /\
  (forall h, history_ok h -> delivered init h = map final_text h).
Proof.
  split.
  - intros event parse path st ino data events Hwf Hino Hlen start Hparse.
    subst start. unfold parse_new_events.
    rewrite read_new_content_readable by assumption.
    cbn zeta iota beta. rewrite Hparse. f_equal. f_equal. f_equal.
    destruct (decide (last_inode st = Some ino)) as [Heq|_]; [|reflexivity].
    apply Nat.max_r, Hlen, Heq.
  - intros h Hok. apply delivered_exact; [reflexivity| |exact Hok].
    destruct h as [|[ino datas] h]; [exact I|]. discriminate.
Qed.

Lemma tail_delivers_appended_text_witness :
  parse_new_events (fun s => Ok [s]) "/var/log/auth.log" (readable 5 "abcdef")
    (Cursor 4 (Some 5%Z)) = (["ef"], Cursor 6 (Some 5%Z), []) /\
  delivered init [(5%Z, ["ab"; "abcd"]); (7%Z, ["x"; "xyz"; "xyz"])] = ["abcd"; "xyz"].
Proof.
  split.
  - apply (proj1 tail_delivers_appended_text string (fun s => Ok [s]) "/var/log/auth.log"
             (Cursor 4 (Some 5%Z)) 5%Z "abcdef" ["ef"]).
    + cbn. discriminate.
    + discriminate.
    + intros _. cbn. lia.
    + reflexivity.
  - apply (proj2 tail_delivers_appended_text
             [(5%Z, ["ab"; "abcd"]); (7%Z, ["x"; "xyz"; "xyz"])]).
    cbn. repeat split; discriminate.
Defined.

(** C1 as stated fails on a file truncated in place: the inode is the same,
    the stored offset 10 is past the new end 4, nothing is read and the
    offset stays at 10; when the file has grown to 12 characters the call
    delivers the last 2, and the 10 before them are never delivered. *)
Lemma tail_truncated_in_place_skips :
  read_new_content (readable 5 "abcd") (Cursor 10 (Some 5%Z)) =
    (Ok "", Cursor 10 (Some 5%Z)) /\
  10 <> String.length "abcd" /\
  run init [(5%Z, "0123456789"); (5%Z, "abcd"); (5%Z, "abcdefghijkl")] =
    (["0123456789"; ""; "kl"], Cursor 12 (Some 5%Z)).
Proof.
  split; [vm_compute; reflexivity|]. split; [discriminate|vm_compute; reflexivity].
Qed.

(** C4, as the code has it. When [os.stat] raises, the call returns no
    events and leaves the cursor as it was. When [os.stat] succeeds and
    opening or reading the file raises, the call returns no events, stores
    the file's inode, and sets the offset to 0 when the stored inode was
    another one; the offset is otherwise unchanged. In both cases the
    exception ends in one [logger.error] record and is not raised. *)
Theorem tail_failure_cursor :
  forall (event : Type) (parse : string -> result (list event)) path fv st e,
    let record := "Failed to parse " +:+ path +:+ ": " +:+ exn_str e in
    (os_stat fv = Raise e ->
     parse_new_events parse path fv st = ([], st, [record])) /\
    (forall ino,
       cursor_wf st -> ino <> 0%Z ->
       os_stat fv = Ok ino -> open_read fv = Raise e ->
       parse_new_events parse path fv st =
         ([], Cursor (if decide (last_inode st = Some ino)
                      then last_position st else 0) (Some ino), [record])).
Proof.
  intros event parse path fv st e record. split.
  - intros Hs. unfold parse_new_events, read_new_content. rewrite Hs. reflexivity.
  - intros ino Hwf Hino Hs Hr. unfold parse_new_events, read_new_content.
    rewrite Hs, Hr. cbn. f_equal. f_equal.
    destruct st as [p [j|]]; unfold cursor_wf in Hwf; cbn in *.
    + destruct (Z.eqb_spec j 0) as [->|_]; [contradiction|]. cbn.
      destruct (Z.eqb_spec ino j) as [->|Hne]; cbn.
      * rewrite decide_True by reflexivity. reflexivity.
      * rewrite decide_False by congruence. reflexivity.
    + subst p. reflexivity.
Qed.

Lemma tail_failure_cursor_witness :
  parse_new_events (fun _ => Ok ([] : list nat)) "/var/log/auth.log"
    (FileView (Raise FileNotFoundError) (Raise FileNotFoundError)) (Cursor 10 (Some 7%Z)) =
  ([], Cursor 10 (Some 7%Z),
   ["Failed to parse /var/log/auth.log: [Errno 2] No such file or directory: '/var/log/auth.log'"]) /\
  parse_new_events (fun _ => Ok ([] : list nat)) "/var/log/auth.log"
    (FileView (Ok 7%Z) (Raise PermissionError)) (Cursor 10 (Some 7%Z)) =
  ([], Cursor 10 (Some 7%Z),
   ["Failed to parse /var/log/auth.log: [Errno 13] Permission denied: '/var/log/auth.log'"]).
Proof.
  split.
  - apply (proj1 (tail_failure_cursor nat (fun _ => Ok []) "/var/log/auth.log"
                    (FileView (Raise FileNotFoundError) (Raise FileNotFoundError))
                    (Cursor 10 (Some 7%Z)) FileNotFoundError)).
    reflexivity.
  - apply (proj2 (tail_failure_cursor nat (fun _ => Ok []) "/var/log/auth.log"
                    (FileView (Ok 7%Z) (Raise PermissionError)) (Cursor 10 (Some 7%Z))
                    PermissionError) 7%Z); cbn; (reflexivity || discriminate).
Defined.

(** C4 as stated fails when the file was replaced by one the collector may
    not read: [os.stat] succeeds, [open] raises, and the cursor has changed
    from offset 10 on inode 5 to offset 0 on inode 7. *)
Lemma tail_unreadable_moves_cursor :
  parse_new_events (fun _ => Ok ([] : list nat)) "/var/log/auth.log"
    (FileView (Ok 7%Z) (Raise PermissionError)) (Cursor 10 (Some 5%Z)) =
  ([], Cursor 0 (Some 7%Z),
   ["Failed to parse /var/log/auth.log: [Errno 13] Permission denied: '/var/log/auth.log'"]) /\
  Cursor 0 (Some 7%Z) <> Cursor 10 (Some 5%Z).
Proof. split; [vm_compute; reflexivity | discriminate]. Qed.

End TailerFacts.

(** ** The web access parsers *)

Lemma prefix_app a b : String.prefix a (a +:+ b) = true.
Proof.
  induction a as [|x a IH]; [destruct b; reflexivity|].
  rewrite append_cons. cbn. destruct (ascii_dec x x); [exact IH|contradiction].
Qed.

Lemma contains_unfold sub s :
  contains sub s =
  String.prefix sub s ||
  match s with EmptyString => false | String _ s' => contains sub s' end.
Proof. destruct s; reflexivity. Qed.

Lemma contains_occurs sub s : contains sub s = true <-> occurs sub s.
Proof.
  split.
  - induction s as [|c s IH]; rewrite contains_unfold; intros H;
      apply orb_true_iff in H as [H|H]; try discriminate.
    + exists "", (sdrop (String.length sub) ""). exact (prefix_append _ _ H).
    + exists "", (sdrop (String.length sub) (String c s)). exact (prefix_append _ _ H).
    + destruct (IH H) as (a & b & ->). exists (String c a), b. reflexivity.
  - intros (a & b & ->). induction a as [|c a IH]; rewrite contains_unfold.
    + change ("" +:+ sub +:+ b) with (sub +:+ b). rewrite prefix_app. reflexivity.
    + rewrite append_cons, IH. apply orb_true_r.
Qed.

Lemma not_contains_occurs sub s : contains sub s = false <-> ~ occurs sub s.
Proof.
  rewrite <- contains_occurs. destruct (contains sub s); split; congruence.
Qed.

Lemma web_events_cons env source k line rest :
  web_events env source k (line :: rest) =
  match web_severity line with
  | Some severity =>
    web_access_event env source k severity line :: web_events env source (S k) rest
  | None => web_events env source k rest
  end.
Proof.
  unfold web_severity. destruct line as [|c line]; [reflexivity|].
  cbn [web_events existsb]. rewrite orb_false_r.
  destruct (contains " 403 " (String c line)); [reflexivity|].
  cbn [orb]. destruct (contains " 404 " (String c line) || contains " 500 " (String c line));
    reflexivity.
Qed.

Lemma web_events_severities env source k lines :
  map severity (web_events env source k lines) = omap web_severity lines.
Proof.
  revert k. induction lines as [|line lines IH]; intros k; [reflexivity|].
  rewrite web_events_cons. cbn [omap list_omap].
  destruct (web_severity line); cbn [map]; rewrite IH; reflexivity.
Qed.

(** C9, as the code has it. Of the lines of a batch, which is stripped of
    the white space at its ends and split at the newlines, a line in which
    " 403 " occurs yields one [web_access] event of severity medium; a line
    in which " 404 " or " 500 " occurs and " 403 " does not yields one of
    severity low; any other line, the empty one included, yields none; and
    in each case the parser goes on with the rest of the batch. Both
    parsers do this on the lines of the stripped content. *)
Theorem web_access_classification :
  (forall env content,
     ApacheLogParser._parse_content env content =
       web_events env "apache_log" 0 (split newline (strip content)) /\
     NginxLogParser._parse_content env content =
       web_events env "nginx_log" 0 (split newline (strip content))) /\
  (forall env source k line rest,
     event_type (web_access_event env source k "medium" line) = "web_access" /\
     (occurs " 403 " line ->
      web_events env source k (line :: rest) =
        web_access_event env source k "medium" line
        :: web_events env source (S k) rest) /\
     (~ occurs " 403 " line -> occurs " 404 " line \/ occurs " 500 " line ->
      web_events env source k (line :: rest) =
        web_access_event env source k "low" line
        :: web_events env source (S k) rest) /\
     (~ occurs " 403 " line -> ~ occurs " 404 " line -> ~ occurs " 500 " line ->
      web_events env source k (line :: rest) = web_events env source k rest)).
Proof.
  split; [intros; split; reflexivity|].
  intros env source k line rest. rewrite web_events_cons. unfold web_severity.
  split; [reflexivity|]. split; [|split].
  - intros H%contains_occurs. rewrite H. reflexivity.
  - intros H3%not_contains_occurs H45. rewrite H3.
    destruct H45 as [H%contains_occurs|H%contains_occurs]; rewrite H;
      rewrite ?orb_true_r; reflexivity.
  - intros H3%not_contains_occurs H4%not_contains_occurs H5%not_contains_occurs.
    rewrite H3, H4, H5. reflexivity.
Qed.

Lemma web_access_classification_witness :
  occurs " 403 " "10.0.0.5 GET /admin 403 512" /\
  web_events web01 "nginx_log" 0 ["10.0.0.5 GET /admin 403 512"; ""] =
    [web_access_event web01 "nginx_log" 0 "medium" "10.0.0.5 GET /admin 403 512"].
Proof.
  assert (H : occurs " 403 " "10.0.0.5 GET /admin 403 512")
    by (exists "10.0.0.5 GET /admin", "512"; reflexivity).
  split; [exact H|].
  exact (proj1 (proj2 (proj2 web_access_classification web01 "nginx_log" 0
                         "10.0.0.5 GET /admin 403 512" [""])) H).
Defined.

(** C9 as stated fails on a line in which " 404 " and " 403 " both occur,
    such as a 404 answer of 403 bytes: the event is of severity medium, not
    low. It also fails on a raw line that ends the batch with " 403 ": the
    batch is stripped before it is split, the line the parser sees ends
    with " 403" and yields no event. *)
Lemma web_404_line_with_403_is_medium :
  occurs " 403 " "10.0.0.5 GET /admin 403 " /\
  ApacheLogParser._parse_content web01
    ("10.0.0.5 GET /admin 403 " +:+ String newline "") = [] /\
  occurs " 404 " "10.0.0.5 GET /old 404 403 -" /\
  map severity (ApacheLogParser._parse_content web01
                  ("10.0.0.5 GET /old 404 403 -" +:+ String newline "")) = ["medium"] /\
  map severity (NginxLogParser._parse_content web01
                  ("10.0.0.5 GET /old 404 403 -" +:+ String newline "")) = ["medium"].
Proof.
  split; [exists "10.0.0.5 GET /admin", ""; reflexivity|].
  split; [vm_compute; reflexivity|].
  split; [exists "10.0.0.5 GET /old", "403 -"; reflexivity|].
  split; vm_compute; reflexivity.
Qed.

(** ** Running the collector's computations *)

Section Run.

Context {A B : Type}.
Implicit Types (self : collector) (w : world).

Lemma bind_run (m : M A) (k : A -> M B) s :
  bind m k s =
  match m s with
  | (Ok a, s') => k a s'
  | (Raise e, s') => (Raise e, s')
  end.
Proof. reflexivity. Qed.

Lemma ret_run (a : A) s : ret a s = (Ok a, s).
Proof. reflexivity. Qed.

Lemma lift_run (r : result A) s : lift r s = (r, s).
Proof. reflexivity. Qed.

Lemma get_self_run self w : get_self (self, w) = (Ok self, (self, w)).
Proof. reflexivity. Qed.

Lemma put_self_run self self' w : put_self self' (self, w) = (Ok tt, (self', w)).
Proof. reflexivity. Qed.

Lemma get_world_run self w : get_world (self, w) = (Ok w, (self, w)).
Proof. reflexivity. Qed.

Lemma put_world_run self w w' : put_world w' (self, w) = (Ok tt, (self, w')).
Proof. reflexivity. Qed.

Lemma utcnow_run self w :
  utcnow (self, w) = (Ok (utcnow_isoformat w (ticks w)), (self, tick w)).
Proof. reflexivity. Qed.

Lemma time_run self w : time (self, w) = (Ok (time_time w (ticks w)), (self, tick w)).
Proof. reflexivity. Qed.

Lemma logger_run level msg self w :
  logger level msg (self, w) = (Ok tt, (self, logged level msg w)).
Proof. reflexivity. Qed.

Lemma write_alert_log_run a self w :
  write_alert_log a (self, w) = (Ok tt, (self, appended a w)).
Proof. reflexivity. Qed.

Lemma send_syslog_alert_run a self w :
  _send_syslog_alert a (self, w) = (Ok tt, (self, forwarded a w)).
Proof. reflexivity. Qed.

End Run.

Ltac run :=
  repeat first
    [ rewrite bind_run | rewrite ret_run | rewrite lift_run
    | rewrite get_self_run | rewrite put_self_run
    | rewrite get_world_run | rewrite put_world_run
    | rewrite utcnow_run | rewrite time_run | rewrite logger_run
    | rewrite write_alert_log_run | rewrite send_syslog_alert_run
    | progress cbv beta iota ].

(** ** Alert export *)

Lemma export_alert_run a self w :
  _export_alert a (self, w) = (Ok tt, (self, exported (export_syslog self) a w)).
Proof.
  unfold _export_alert, exported. run.
  destruct (alert_log_error w); run; destruct (export_syslog self); run; reflexivity.
Qed.




(** ** The threat correlator *)





Section Correlator.

Variable event : SecurityEvent.
Implicit Types (T : gmap string ThreatIndicator) (ms : list (string * ThreatIndicator)).


Lemma set_threat_indicators_twice T T' self :
  set_threat_indicators T (set_threat_indicators T' self) = set_threat_indicators T self.
Proof. reflexivity. Qed.









End Correlator.



(** ** Alert identifiers *)


Lemma generate_anomaly_alert_run metric_name current_value baseline severity self w :
  _generate_anomaly_alert metric_name current_value baseline severity (self, w) =
  (Ok tt, (self, anomaly_alerted (export_syslog self) metric_name current_value
                   baseline severity w)).
Proof.
  unfold _generate_anomaly_alert, anomaly_alerted, anomaly_alert_in. run.
  rewrite export_alert_run. reflexivity.
Qed.

Lemma generate_resource_alert_run float_repr resource_type value mount self w :
  _generate_resource_alert float_repr resource_type value mount (self, w) =
  (Ok tt, (self, exported (export_syslog self)
                   (resource_alert_in float_repr w resource_type value mount)
                   (logged "WARNING"
                      (resource_description float_repr resource_type value mount)
                      (tick (tick w))))).
Proof.
  unfold _generate_resource_alert, resource_alert_in, resource_description. run.
  rewrite export_alert_run. reflexivity.
Qed.

(** The character strings hashed at two different seconds differ. *)
Lemma anomaly_alert_data_inj metric_name t1 t2 :
  anomaly_alert_data metric_name t1 = anomaly_alert_data metric_name t2 ->
  int_of_float t1 = int_of_float t2.
Proof.
  unfold anomaly_alert_data. intros H.
  do 3 apply String.app_inj in H. apply (inj pretty) in H. exact H.
Qed.

Lemma resource_alert_data_inj float_repr resource_type value t1 t2 :
  resource_alert_data float_repr resource_type value t1 =
  resource_alert_data float_repr resource_type value t2 ->
  int_of_float t1 = int_of_float t2.
Proof.
  unfold resource_alert_data. intros H.
  do 4 apply String.app_inj in H. apply (inj pretty) in H. exact H.
Qed.

(** C10. The id of an anomaly alert is the first 16 hexadecimal digits of the
    MD5 of "anomaly_<metric_name>_<epoch second>", the second being that of
    the clock reading made for it; two anomaly alerts for the same metric
    made within the same second have the same id, whatever their values,
    baselines and severities. *)
Theorem anomaly_alert_id_metric_and_second :
  (forall metric_name current_value baseline severity self w,
     _generate_anomaly_alert metric_name current_value baseline severity (self, w) =
       (Ok tt, (self, exported (export_syslog self)
                        (anomaly_alert_in w metric_name current_value baseline severity)
                        (logged "WARNING"
                           ("Anomaly Alert: " +:+
                            anomaly_description metric_name current_value baseline)
                           (tick (tick w))))) /\
     alert_id (anomaly_alert_in w metric_name current_value baseline severity) =
       String.substring 0 16
         (md5_hexdigest
            ("anomaly_" +:+ metric_name +:+ "_" +:+
             pretty (int_of_float (time_time w (S (ticks w))))))) /\
  (forall metric_name w1 v1 b1 s1 w2 v2 b2 s2,
     int_of_float (time_time w1 (S (ticks w1))) =
     int_of_float (time_time w2 (S (ticks w2))) ->
     alert_id (anomaly_alert_in w1 metric_name v1 b1 s1) =
     alert_id (anomaly_alert_in w2 metric_name v2 b2 s2)).
Proof.
  split.
  - intros. split; [apply generate_anomaly_alert_run|reflexivity].
  - intros metric_name w1 v1 b1 s1 w2 v2 b2 s2 Hsec. cbn [alert_id anomaly_alert_in].
    unfold anomaly_alert_id, anomaly_alert_data. rewrite Hsec. reflexivity.
Qed.

Lemma anomaly_alert_id_metric_and_second_witness :
  alert_id (anomaly_alert_in quiet "cpu_usage" 95 steady "high") =
  alert_id (anomaly_alert_in (later 0.5 quiet) "cpu_usage" 67.5 busy "medium") /\
  alert_id (anomaly_alert_in quiet "cpu_usage" 95 steady "high") = "faf43dd9b57d334d".
Proof.
  split.
  - apply (proj2 anomaly_alert_id_metric_and_second). vm_compute. reflexivity.
  - vm_compute. reflexivity.
Defined.

(** C5, as the code has it. The id of a resource alert is a hash of the
    resource type, the value and the epoch second of the clock reading made
    for it, and the id of an anomaly alert a hash of the metric name and
    that second: made within the same second with the same content, two
    such alerts have the same id, and made in different seconds, their ids
    are the hashes of two different character strings. The id of a security
    or threat alert is a hash of the event's own timestamp, type and source
    and does not depend on when the alert is made. *)
Theorem alert_id_determinism :
  (forall event threat w,
     alert_id (security_alert_in w event) =
       md5_16 ("sec_" +:+ timestamp event +:+ "_" +:+ event_type event +:+ "_"
               +:+ source event) /\
     alert_id (threat_alert_in w event threat) =
       md5_16 ("threat_" +:+ timestamp event +:+ "_" +:+ event_type event +:+ "_"
               +:+ source event)) /\
  (forall float_repr resource_type value mount1 mount2 metric_name v1 b1 s1 v2 b2 s2 w1 w2,
     let t1 := time_time w1 (S (ticks w1)) in
     let t2 := time_time w2 (S (ticks w2)) in
     let r1 := resource_alert_in float_repr w1 resource_type value mount1 in
     let r2 := resource_alert_in float_repr w2 resource_type value mount2 in
     let a1 := anomaly_alert_in w1 metric_name v1 b1 s1 in
     let a2 := anomaly_alert_in w2 metric_name v2 b2 s2 in
     alert_id r1 = md5_16 (resource_alert_data float_repr resource_type value t1) /\
     alert_id r2 = md5_16 (resource_alert_data float_repr resource_type value t2) /\
     alert_id a1 = md5_16 (anomaly_alert_data metric_name t1) /\
     alert_id a2 = md5_16 (anomaly_alert_data metric_name t2) /\
     (int_of_float t1 = int_of_float t2 ->
      alert_id r1 = alert_id r2 /\ alert_id a1 = alert_id a2) /\
     (int_of_float t1 <> int_of_float t2 ->
      resource_alert_data float_repr resource_type value t1 <>
      resource_alert_data float_repr resource_type value t2 /\
      anomaly_alert_data metric_name t1 <> anomaly_alert_data metric_name t2)).
Proof.
  split; [intros; split; reflexivity|].
  intros float_repr resource_type value mount1 mount2 metric_name
         v1 b1 s1 v2 b2 s2 w1 w2 t1 t2 r1 r2 a1 a2.
  repeat (split; [reflexivity|]). split.
  - intros Hsec. subst r1 r2 a1 a2. cbn [alert_id resource_alert_in anomaly_alert_in].
    unfold resource_alert_id, resource_alert_data, anomaly_alert_id, anomaly_alert_data.
    fold t1 t2. rewrite Hsec. split; reflexivity.
  - intros Hsec. split; intros Heq; apply Hsec.
    + exact (resource_alert_data_inj _ _ _ _ _ Heq).
    + exact (anomaly_alert_data_inj _ _ _ Heq).
Qed.

Lemma alert_id_determinism_witness :
  alert_id (resource_alert_in (fun _ => "97.5") quiet "cpu" (PyFloat 97.5) None) =
  alert_id (resource_alert_in (fun _ => "97.5") (later 0.5 quiet) "cpu" (PyFloat 97.5) None) /\
  resource_alert_data (fun _ => "97.5") "cpu" (PyFloat 97.5) (time_time quiet 1) <>
  resource_alert_data (fun _ => "97.5") "cpu" (PyFloat 97.5) (time_time (later 1 quiet) 1).
Proof.
  split.
  - apply (proj2 alert_id_determinism (fun _ => "97.5") "cpu" (PyFloat 97.5) None None
             "cpu_usage" 95%float steady "high" 95%float steady "high" quiet
             (later 0.5 quiet)).
    vm_compute. reflexivity.
  - apply (proj2 alert_id_determinism (fun _ => "97.5") "cpu" (PyFloat 97.5) None None
             "cpu_usage" 95%float steady "high" 95%float steady "high" quiet
             (later 1 quiet)).
    vm_compute. discriminate.
Defined.

(** C5 as stated fails for security alerts: two alerts made for the same
    event one second apart (the first and the second reading of the clock
    of [quiet]) have the same id. *)
Lemma security_alert_id_ignores_the_clock :
  alert_log (snd (snd ((_generate_alert probe ;; _generate_alert probe)
                         (init false, quiet)))) =
  [security_alert "2026-11-04T10:00:00" probe "b88969230d5e848f";
   security_alert "2026-11-04T10:00:01" probe "b88969230d5e848f"].
Proof. vm_compute. reflexivity. Qed.

(** ** Comparisons of floats *)







(** ** The anomaly check *)






(** C3 fails on the code. After 50 identical samples the baseline of each
    metric has a standard deviation of 0; the check of [cpu_usage] then
    divides by it and raises [ZeroDivisionError], the checks of the two
    other metrics are not reached, and the turn of the detection loop ends
    in its error handler. *)
Lemma zero_std_baseline_raises :
  baseline_of (cpu_values (replicate 50 idle)) =
    Ok {| mean := 5; std := 0; min := PyFloat 5; max := PyFloat 5 |} /\
  _check_metric_anomaly "cpu_usage" (cpu_values (replicate 10 idle))
    (watching "cpu_usage" {| mean := 5; std := 0; min := PyFloat 5; max := PyFloat 5 |},
     quiet) =
    (Raise (ZeroDivisionError "float division by zero"),
     (watching "cpu_usage" {| mean := 5; std := 0; min := PyFloat 5; max := PyFloat 5 |},
      quiet)) /\
  fst (_detect_anomalies (idling, quiet)) =
    Raise (ZeroDivisionError "float division by zero") /\
  log_records (snd (anomaly_detection_turn (idling, quiet))) =
    [("INFO", "Baseline metrics established");
     ("ERROR", "Anomaly detection error: float division by zero")] /\
  alert_log (snd (anomaly_detection_turn (idling, quiet))) = [].
Proof. repeat split; vm_compute; reflexivity. Qed.

(** ** The baseline estimator *)





Section Extremes.

Context {A : Type} (lt : A -> A -> bool).
Hypothesis lt_irrefl : forall x, lt x x = false.
Hypothesis lt_trans : forall x y z, lt x y = true -> lt y z = true -> lt x z = true.



End Extremes.













(** * Further properties *)

(** ** The log tailer, call after call *)

Module TailerCalls.
Import Tailer.

Section Calls.

Context {event : Type}.
Variable parse : string -> result (list event).
Variable path : string.

(** The cursor [parse_new_events] leaves. *)
Let cursor_after (fv : file_view) (st : cursor) : cursor :=
  snd (fst (parse_new_events parse path fv st)).

Lemma parse_new_events_readable st ino data :
  cursor_wf st -> ino <> 0%Z ->
  parse_new_events parse path (readable ino data) st =
  let start := if decide (last_inode st = Some ino) then last_position st else 0 in
  let st' := Cursor (Nat.max start (String.length data)) (Some ino) in
  match parse (sdrop start data) with
  | Ok events => (events, st', [])
  | Raise e => ([], st', ["Failed to parse " +:+ path +:+ ": " +:+ exn_str e])
  end.
Proof.
  intros Hwf Hino. unfold parse_new_events.
  rewrite TailerFacts.read_new_content_readable by assumption. reflexivity.
Qed.

(** X1. A second call on a file that has not changed hands the parser the
    empty text and leaves the cursor where the first call left it: with a
    parser that finds no event in the empty text, as the five parsers of
    the collector, it returns no events and logs nothing. *)
Theorem tail_unchanged_file_reads_nothing st ino data :
  cursor_wf st -> ino <> 0%Z -> parse "" = Ok [] ->
  parse_new_events parse path (readable ino data) (cursor_after (readable ino data) st) =
  ([], cursor_after (readable ino data) st, []).
Proof.
  intros Hwf Hino Hp. unfold cursor_after.
  rewrite (parse_new_events_readable st) by assumption. cbn zeta.
  set (start := if decide (last_inode st = Some ino) then last_position st else 0).
  assert (Hst : snd (fst (match parse (sdrop start data) with
                          | Ok events => (events, Cursor (Nat.max start (String.length data)) (Some ino), [])
                          | Raise e => ([], Cursor (Nat.max start (String.length data)) (Some ino),
                                        ["Failed to parse " +:+ path +:+ ": " +:+ exn_str e])
                          end)) = Cursor (Nat.max start (String.length data)) (Some ino))
    by (destruct (parse (sdrop start data)); reflexivity).
  rewrite Hst. rewrite parse_new_events_readable by (cbn; assumption).
  cbn [last_inode last_position]. rewrite decide_True by reflexivity. cbn zeta.
  rewrite sdrop_all by lia. rewrite Hp.
  rewrite Nat.max_l by lia. reflexivity.
Qed.

(** X2. A call that fails after [os.stat] has succeeded moves the cursor,
    and yet loses nothing: the next successful call on the file of that
    inode returns what it would have returned had the failed call not been
    made. *)
Theorem tail_read_failure_loses_nothing st ino e data :
  cursor_wf st -> ino <> 0%Z ->
  parse_new_events parse path (readable ino data)
    (cursor_after (FileView (Ok ino) (Raise e)) st) =
  parse_new_events parse path (readable ino data) st.
Proof.
  intros Hwf Hino.
  assert (Hst : cursor_after (FileView (Ok ino) (Raise e)) st =
                Cursor (if decide (last_inode st = Some ino) then last_position st else 0)
                       (Some ino)).
  { unfold cursor_after, parse_new_events, read_new_content. cbn.
    destruct st as [p [j|]]; unfold cursor_wf in Hwf; cbn in *.
    - destruct (Z.eqb_spec j 0) as [->|_]; [contradiction|]. cbn.
      destruct (Z.eqb_spec ino j) as [->|Hne]; cbn.
      + rewrite decide_True by reflexivity. reflexivity.
      + rewrite decide_False by congruence. reflexivity.
    - subst p. reflexivity. }
  rewrite Hst. rewrite !parse_new_events_readable by (cbn; assumption).
  cbn [last_inode last_position]. rewrite decide_True by reflexivity. reflexivity.
Qed.

(** X3. When the parser raises on the new text, the call returns no events
    and logs the error, but the offset has already moved to the end of the
    file: the next call hands the parser only what was appended since, and
    the text the parser failed on is never parsed again. *)
Theorem tail_parser_error_consumes_text st ino data e more :
  cursor_wf st -> ino <> 0%Z ->
  (last_inode st = Some ino -> last_position st <= String.length data) ->
  parse (sdrop (if decide (last_inode st = Some ino) then last_position st else 0) data)
    = Raise e ->
  parse_new_events parse path (readable ino data) st =
    ([], Cursor (String.length data) (Some ino),
     ["Failed to parse " +:+ path +:+ ": " +:+ exn_str e]) /\
  parse_new_events parse path (readable ino (data +:+ more))
    (Cursor (String.length data) (Some ino)) =
    match parse more with
    | Ok events => (events, Cursor (String.length (data +:+ more)) (Some ino), [])
    | Raise e' => ([], Cursor (String.length (data +:+ more)) (Some ino),
                   ["Failed to parse " +:+ path +:+ ": " +:+ exn_str e'])
    end.
Proof.
  intros Hwf Hino Hlen Hp. split.
  - rewrite parse_new_events_readable by assumption. cbn zeta. rewrite Hp.
    destruct (decide (last_inode st = Some ino)) as [Heq|_].
    + rewrite Nat.max_r by (apply Hlen, Heq). reflexivity.
    + reflexivity.
  - rewrite parse_new_events_readable by (cbn; assumption).
    cbn [last_inode last_position]. rewrite decide_True by reflexivity. cbn zeta.
    rewrite sdrop_length_append, length_append.
    rewrite Nat.max_r by lia. reflexivity.
Qed.

End Calls.

Lemma tail_unchanged_file_reads_nothing_witness :
  parse_new_events (fun content => Ok (ApacheLogParser._parse_content web01 content))
    "/var/log/apache2/access.log" (readable 5 "GET /admin 403 512")
    (Cursor 18 (Some 5%Z)) = ([], Cursor 18 (Some 5%Z), []).
Proof.
  apply (tail_unchanged_file_reads_nothing
           (fun content => Ok (ApacheLogParser._parse_content web01 content))
           "/var/log/apache2/access.log" init 5%Z "GET /admin 403 512");
    [reflexivity|discriminate|reflexivity].
Defined.

Lemma tail_read_failure_loses_nothing_witness :
  parse_new_events (fun s => Ok [s]) "/var/log/auth.log" (readable 7 "abc")
    (Cursor 0 (Some 7%Z)) =
  parse_new_events (fun s => Ok [s]) "/var/log/auth.log" (readable 7 "abc")
    (Cursor 10 (Some 5%Z)).
Proof.
  apply (tail_read_failure_loses_nothing (fun s => Ok [s]) "/var/log/auth.log"
           (Cursor 10 (Some 5%Z)) 7%Z PermissionError "abc");
    cbn; discriminate.
Defined.

Lemma tail_parser_error_consumes_text_witness :
  parse_new_events BaseLogParser._parse_content "/var/log/syslog"
    (readable 5 "kernel: error") init =
  ([], Cursor 13 (Some 5%Z), ["Failed to parse /var/log/syslog: "]).
Proof.
  apply (tail_parser_error_consumes_text BaseLogParser._parse_content "/var/log/syslog"
           init 5%Z "kernel: error" (PyExn "NotImplementedError" "") "");
    [reflexivity|discriminate|discriminate|reflexivity].
Defined.

End TailerCalls.

(** ** The five parsers *)

Lemma auth_events_of env k lines :
  AuthLogParser.events env k lines = events_of auth_verdict env k lines.
Proof.
  revert k. induction lines as [|line lines IH]; intros k; [reflexivity|].
  destruct line as [|c line]; cbn [AuthLogParser.events events_of]; [apply IH|].
  unfold auth_verdict.
  destruct (contains "Failed password" (String c line)); [rewrite IH; reflexivity|].
  destruct (contains "Accepted password" (String c line)); rewrite IH; reflexivity.
Qed.

Lemma syslog_events_of env k lines :
  SyslogParser.events env k lines = events_of syslog_verdict env k lines.
Proof.
  revert k. induction lines as [|line lines IH]; intros k; [reflexivity|].
  destruct line as [|c line]; cbn [SyslogParser.events events_of]; [apply IH|].
  unfold syslog_verdict. cbn [existsb]. rewrite !orb_false_r.
  destruct (contains "error" (lower (String c line))),
           (contains "warning" (lower (String c line))),
           (contains "critical" (lower (String c line))),
           (contains "alert" (lower (String c line)));
    cbn [orb]; rewrite IH; reflexivity.
Qed.

Lemma audit_events_of env k lines :
  AuditLogParser.events env k lines = events_of audit_verdict env k lines.
Proof.
  revert k. induction lines as [|line lines IH]; intros k; [reflexivity|].
  destruct line as [|c line]; cbn [AuditLogParser.events events_of orb]; [apply IH|].
  unfold audit_verdict.
  destruct (startswith "type=" (String c line)); cbn [negb andb]; [|apply IH].
  destruct (contains "type=SYSCALL" (String c line)); rewrite IH; reflexivity.
Qed.

Lemma web_events_of env source k lines :
  web_events env source k lines = events_of (web_verdict source) env k lines.
Proof.
  revert k. induction lines as [|line lines IH]; intros k; [reflexivity|].
  rewrite web_events_cons. cbn [events_of]. unfold web_verdict.
  destruct line as [|c line].
  - assert (H : web_severity "" = None) by reflexivity. rewrite H. apply IH.
  - destruct (web_severity (String c line)); cbn [fmap option_fmap option_map];
      rewrite IH; reflexivity.
Qed.

Section EventsOf.

Variable judge : string -> verdict.
Variable env : host_env.

Lemma events_of_log_lines k lines :
  omap log_line (events_of judge env k lines) `sublist_of` lines.
Proof.
  revert k. induction lines as [|line lines IH]; intros k; [constructor|].
  cbn [events_of]. destruct line as [|c line]; [constructor; apply IH|].
  destruct (judge (String c line)) as [[[[ty src] sev] descr]|]; [|constructor; apply IH].
  cbn [omap list_omap]. unfold log_line at 1. cbn [details line_event].
  rewrite lookup_singleton_eq. constructor. apply IH.
Qed.

Lemma events_of_timestamps k lines :
  map timestamp (events_of judge env k lines) =
  map (clock env) (seq k (length (events_of judge env k lines))).
Proof.
  revert k. induction lines as [|line lines IH]; intros k; [reflexivity|].
  cbn [events_of]. destruct line as [|c line]; [apply IH|].
  destruct (judge (String c line)) as [[[[ty src] sev] descr]|]; [|apply IH].
  cbn [map length seq]. rewrite IH. reflexivity.
Qed.

Lemma events_of_complete k lines :
  Forall (fun e => host e = nodename env /\ user e = None /\ process e = None /\
                   network_info e = None /\ file_info e = None /\
                   exists line, details e = {["log_line" := line]} /\ line <> "" /\
                                judge line = Some (event_type e, source e, severity e,
                                                   description e))
         (events_of judge env k lines).
Proof.
  revert k. induction lines as [|line lines IH]; intros k; [constructor|].
  cbn [events_of]. destruct line as [|c line]; [apply IH|].
  destruct (judge (String c line)) as [[[[ty src] sev] descr]|] eqn:Hj; [|apply IH].
  constructor; [|apply IH]. cbn. repeat split. exists (String c line). auto.
Qed.

Lemma events_of_length k lines :
  length (events_of judge env k lines) =
  length (filter (fun line => line <> "" /\ is_Some (judge line)) lines).
Proof.
  revert k. induction lines as [|line lines IH]; intros k; [reflexivity|].
  cbn [events_of]. destruct line as [|c line].
  - rewrite filter_cons_False by (intros [H _]; congruence). apply IH.
  - destruct (judge (String c line)) as [[[[ty src] sev] descr]|] eqn:Hj.
    + rewrite filter_cons_True by (split; [discriminate|rewrite Hj; eauto]).
      cbn [length]. rewrite IH. reflexivity.
    + rewrite filter_cons_False by (intros [_ [x Hx]]; congruence). apply IH.
Qed.

End EventsOf.

Lemma log_parsers_events_of name parse judge env content :
  (name, (parse, judge)) ∈ log_parsers ->
  parse env content = events_of judge env 0 (split newline (strip content)).
Proof.
  unfold log_parsers. rewrite !elem_of_cons, elem_of_nil.
  intros [H|[H|[H|[H|[H|[]]]]]]; injection H as -> -> ->.
  - apply auth_events_of.
  - apply syslog_events_of.
  - apply audit_events_of.
  - apply web_events_of.
  - apply web_events_of.
Qed.

Lemma strip_blank s : blank s = true -> strip s = "".
Proof.
  unfold strip. induction s as [|c s IH]; [reflexivity|]. cbn.
  intros [Hc Hs]%andb_true_iff. rewrite Hc. apply IH, Hs.
Qed.

(** X4. Every parser of the collector returns no event for a content that is
    empty or made of white space only. *)
Theorem blank_content_no_events name parse judge env content :
  (name, (parse, judge)) ∈ log_parsers -> blank content = true ->
  parse env content = [].
Proof.
  intros Hin Hb. rewrite (log_parsers_events_of _ _ _ _ _ Hin), (strip_blank _ Hb).
  reflexivity.
Qed.

Lemma blank_content_no_events_witness :
  SyslogParser._parse_content web01 (String newline (String newline " ")) = [].
Proof.
  apply (blank_content_no_events "syslog" _ syslog_verdict).
  - unfold log_parsers. apply list_elem_of_further, list_elem_of_here.
  - reflexivity.
Defined.

(** X5. The events a parser returns follow the lines of the content: their
    [log_line]s are lines of the stripped content, in the order of the
    lines and no line twice; there is one event for each non-empty line the
    parser has a verdict on; the i-th event carries the i-th reading of the
    clock, the name of the host, the whole line as its only detail, and
    neither user, process, network nor file information. *)
Theorem events_follow_lines name parse judge env content :
  (name, (parse, judge)) ∈ log_parsers ->
  let lines := split newline (strip content) in
  let events := parse env content in
  omap log_line events `sublist_of` lines /\
  length events = length (filter (fun line => line <> "" /\ is_Some (judge line)) lines) /\
  map timestamp events = map (clock env) (seq 0 (length events)) /\
  Forall (fun e => host e = nodename env /\ user e = None /\ process e = None /\
                   network_info e = None /\ file_info e = None /\
                   exists line, details e = {["log_line" := line]} /\ line <> "" /\
                                judge line = Some (event_type e, source e, severity e,
                                                   description e))
         events.
Proof.
  intros Hin lines events. subst events lines.
  rewrite (log_parsers_events_of _ _ _ _ _ Hin).
  split; [apply events_of_log_lines|]. split; [apply events_of_length|].
  split; [apply events_of_timestamps|apply events_of_complete].
Qed.

Lemma events_follow_lines_witness :
  omap log_line (AuthLogParser._parse_content web01
                   ("Accepted password for bob" +:+ String newline "cron: job" +:+
                    String newline "Failed password for root"))
  `sublist_of` ["Accepted password for bob"; "cron: job"; "Failed password for root"].
Proof.
  apply (proj1 (events_follow_lines "auth" _ auth_verdict web01
                  ("Accepted password for bob" +:+ String newline "cron: job" +:+
                   String newline "Failed password for root")
                  ltac:(apply list_elem_of_here))).
Defined.

Lemma lower_append a b : lower (a +:+ b) = lower a +:+ lower b.
Proof.
  induction a as [|c a IH]; [reflexivity|]. rewrite append_cons. cbn [lower].
  rewrite IH. reflexivity.
Qed.

Lemma occurs_lower u kw line :
  lower u = kw -> occurs u line -> occurs kw (lower line).
Proof.
  intros <- (a & b & ->). exists (lower a), (lower b). rewrite !lower_append. reflexivity.
Qed.

Lemma startswith_spec p s : startswith p s = true <-> exists r, s = p +:+ r.
Proof.
  unfold startswith. split.
  - intros H. eexists. exact (prefix_append _ _ H).
  - intros [r ->]. apply prefix_app.
Qed.

Lemma occurs_nonempty sub c sub' line : sub = String c sub' -> occurs sub line -> line <> "".
Proof. intros -> (a & b & ->). destruct a; discriminate. Qed.

Lemma events_of_cons judge env k line rest :
  line <> "" ->
  events_of judge env k (line :: rest) =
  match judge line with
  | Some (event_type, source, severity, description) =>
    line_event env k event_type source severity description line
    :: events_of judge env (S k) rest
  | None => events_of judge env k rest
  end.
Proof.
  intros Hne. destruct line as [|c line]; [contradiction|]. cbn [events_of].
  destruct (judge (String c line)) as [[[[ty src] sev] descr]|]; reflexivity.
Qed.

Lemma events_of_skip judge env k line rest :
  judge line = None -> events_of judge env k (line :: rest) = events_of judge env k rest.
Proof.
  intros Hj. destruct line as [|c line]; [reflexivity|]. cbn [events_of]. rewrite Hj.
  reflexivity.
Qed.

(** X6. The authentication parser, line by line: a line in which
    "Failed password" occurs yields one [authentication_failure] event of
    severity medium, also when "Accepted password" occurs in it; a line in
    which "Accepted password" occurs and "Failed password" does not yields
    one [authentication_success] event of severity info; any other line
    yields nothing; the rest of the batch is parsed in each case. *)
Theorem auth_classification env k line rest :
  (occurs "Failed password" line ->
   AuthLogParser.events env k (line :: rest) =
     line_event env k "authentication_failure" "auth_log" "medium"
                "Failed password authentication" line
     :: AuthLogParser.events env (S k) rest) /\
  (~ occurs "Failed password" line -> occurs "Accepted password" line ->
   AuthLogParser.events env k (line :: rest) =
     line_event env k "authentication_success" "auth_log" "info"
                "Successful password authentication" line
     :: AuthLogParser.events env (S k) rest) /\
  (~ occurs "Failed password" line -> ~ occurs "Accepted password" line ->
   AuthLogParser.events env k (line :: rest) = AuthLogParser.events env k rest).
Proof.
  rewrite !auth_events_of. unfold auth_verdict. split; [|split].
  - intros H. rewrite events_of_cons by (eapply occurs_nonempty; [reflexivity|exact H]).
    apply contains_occurs in H. unfold auth_verdict. rewrite H. reflexivity.
  - intros Hf Ha. rewrite events_of_cons by (eapply occurs_nonempty; [reflexivity|exact Ha]).
    apply not_contains_occurs in Hf. apply contains_occurs in Ha.
    unfold auth_verdict. rewrite Hf, Ha. reflexivity.
  - intros Hf Ha. apply events_of_skip.
    apply not_contains_occurs in Hf. apply not_contains_occurs in Ha.
    unfold auth_verdict. rewrite Hf, Ha. reflexivity.
Qed.

Lemma auth_classification_witness :
  AuthLogParser.events web01 0 ["Failed password after Accepted password"] =
  [line_event web01 0 "authentication_failure" "auth_log" "medium"
              "Failed password authentication" "Failed password after Accepted password"].
Proof.
  apply (proj1 (auth_classification web01 0 "Failed password after Accepted password" [])).
  exists "", " after Accepted password". reflexivity.
Defined.

(** X7. The syslog parser, line by line, whatever the case of the letters:
    a line in which "critical" or "alert" occurs in any case yields one
    [system_event] of severity high; a line in which "error" or "warning"
    occurs in any case, and neither "critical" nor "alert" does, yields one
    of severity medium; a line in whose lower-case form none of the four
    occurs yields nothing. *)
Theorem syslog_classification env k line rest :
  (forall u, lower u = "critical" \/ lower u = "alert" -> occurs u line ->
   SyslogParser.events env k (line :: rest) =
     line_event env k "system_event" "syslog" "high" "System log event" line
     :: SyslogParser.events env (S k) rest) /\
  (forall u, lower u = "error" \/ lower u = "warning" -> occurs u line ->
   ~ occurs "critical" (lower line) -> ~ occurs "alert" (lower line) ->
   SyslogParser.events env k (line :: rest) =
     line_event env k "system_event" "syslog" "medium" "System log event" line
     :: SyslogParser.events env (S k) rest) /\
  (~ occurs "error" (lower line) -> ~ occurs "warning" (lower line) ->
   ~ occurs "critical" (lower line) -> ~ occurs "alert" (lower line) ->
   SyslogParser.events env k (line :: rest) = SyslogParser.events env k rest).
Proof.
  rewrite !syslog_events_of. split; [|split].
  - intros u Hu Ho.
    assert (Hne : line <> "").
    { destruct Ho as (a & b & ->). destruct a; [|discriminate].
      destruct u; [destruct Hu; discriminate|discriminate]. }
    rewrite events_of_cons by exact Hne. unfold syslog_verdict.
    destruct Hu as [Hu|Hu]; apply (occurs_lower _ _ _ Hu), contains_occurs in Ho;
      rewrite Ho, ?orb_true_r; reflexivity.
  - intros u Hu Ho Hc Ha.
    assert (Hne : line <> "").
    { destruct Ho as (a & b & ->). destruct a; [|discriminate].
      destruct u; [destruct Hu; discriminate|discriminate]. }
    rewrite events_of_cons by exact Hne. unfold syslog_verdict.
    apply not_contains_occurs in Hc. apply not_contains_occurs in Ha. rewrite Hc, Ha.
    destruct Hu as [Hu|Hu]; apply (occurs_lower _ _ _ Hu), contains_occurs in Ho;
      rewrite Ho, ?orb_true_r; reflexivity.
  - intros He Hw Hc Ha. apply events_of_skip. unfold syslog_verdict.
    apply not_contains_occurs in He, Hw, Hc, Ha. rewrite He, Hw, Hc, Ha. reflexivity.
Qed.

Lemma syslog_classification_witness :
  SyslogParser.events web01 0 ["kernel: CRITICAL: disk error"] =
  [line_event web01 0 "system_event" "syslog" "high" "System log event"
              "kernel: CRITICAL: disk error"].
Proof.
  apply (proj1 (syslog_classification web01 0 "kernel: CRITICAL: disk error" [])
               "CRITICAL").
  - left. reflexivity.
  - exists "kernel: ", ": disk error". reflexivity.
Defined.

(** X8. The audit parser, line by line: a line that starts with "type=" and
    in which "type=SYSCALL" occurs yields one [system_call] event of
    severity info; a line that does not start with "type=", even one in
    which "type=SYSCALL" occurs after other text, yields nothing, as does a
    line without "type=SYSCALL". *)
Theorem audit_classification env k line rest :
  ((exists r, line = "type=" +:+ r) -> occurs "type=SYSCALL" line ->
   AuditLogParser.events env k (line :: rest) =
     line_event env k "system_call" "audit_log" "info" "System call audit event" line
     :: AuditLogParser.events env (S k) rest) /\
  (~ (exists r, line = "type=" +:+ r) ->
   AuditLogParser.events env k (line :: rest) = AuditLogParser.events env k rest) /\
  (~ occurs "type=SYSCALL" line ->
   AuditLogParser.events env k (line :: rest) = AuditLogParser.events env k rest).
Proof.
  rewrite !audit_events_of. split; [|split].
  - intros Hs Ho. rewrite events_of_cons by (eapply occurs_nonempty; [reflexivity|exact Ho]).
    apply startswith_spec in Hs. apply contains_occurs in Ho.
    unfold audit_verdict. rewrite Hs, Ho. reflexivity.
  - intros Hs. apply events_of_skip. unfold audit_verdict.
    destruct (startswith "type=" line) eqn:E; [|reflexivity].
    apply startswith_spec in E. contradiction.
  - intros Ho. apply events_of_skip. unfold audit_verdict.
    apply not_contains_occurs in Ho. rewrite Ho, andb_false_r. reflexivity.
Qed.

Lemma audit_classification_witness :
  AuditLogParser.events web01 0 ["type=SYSCALL msg=audit(1): arch=c000003e"] =
  [line_event web01 0 "system_call" "audit_log" "info" "System call audit event"
              "type=SYSCALL msg=audit(1): arch=c000003e"] /\
  AuditLogParser.events web01 0 ["node=a type=SYSCALL msg=audit(1)"] = [].
Proof.
  split.
  - apply (proj1 (audit_classification web01 0 "type=SYSCALL msg=audit(1): arch=c000003e" [])).
    + exists "SYSCALL msg=audit(1): arch=c000003e". reflexivity.
    + exists "", " msg=audit(1): arch=c000003e". reflexivity.
  - apply (proj1 (proj2 (audit_classification web01 0 "node=a type=SYSCALL msg=audit(1)" []))).
    intros [r Hr]. discriminate.
Defined.

(** ** Alerts and their export *)





(** ** The anomaly detection turn *)



Lemma check_metric_anomaly_frame metric_name values self w :
  exists r w', _check_metric_anomaly metric_name values (self, w) = (r, (self, w')).
Proof.
  unfold _check_metric_anomaly. run.
  destruct (baseline_metrics self !! metric_name) as [b|]; [|eauto].
  run. destruct (py_truediv (py_sum values) (py_len values)) as [avg|e]; [|eauto].
  run. destruct (float_truediv (abs (avg - mean b)) (std b)) as [z|e]; [|eauto].
  run. destruct (2 <? z)%float; [|eauto].
  rewrite generate_anomaly_alert_run. eauto.
Qed.


Lemma detect_anomalies_checks self w :
  baseline_metrics self <> ∅ ->
  let recent_metrics := lastn 10 (items (metrics_buffer self)) in
  _detect_anomalies (self, w) =
  (_check_metric_anomaly "cpu_usage" (cpu_values recent_metrics) ;;
   _check_metric_anomaly "memory_usage" (memory_values recent_metrics) ;;
   _check_metric_anomaly "network_connections" (network_values recent_metrics)) (self, w).
Proof.
  intros Hne recent_metrics. unfold _detect_anomalies. run.
  rewrite bool_decide_eq_false_2 by exact Hne. run. reflexivity.
Qed.

(** X11. Once baselines exist, [_detect_anomalies] never computes them
    again: whatever the metrics buffer has come to hold, and whether the
    checks return or raise, the collector it leaves (baselines, buffers,
    threat table) is the one it was given. *)
Theorem baselines_never_refreshed self w :
  baseline_metrics self <> ∅ ->
  exists r w', _detect_anomalies (self, w) = (r, (self, w')) /\
               fst (anomaly_detection_turn (self, w)) = self.
Proof.
  intros Hne.
  assert (H : exists r w', _detect_anomalies (self, w) = (r, (self, w'))).
  { rewrite (detect_anomalies_checks self w Hne). cbn zeta. run.
    destruct (check_metric_anomaly_frame "cpu_usage"
                (cpu_values (lastn 10 (items (metrics_buffer self)))) self w)
      as (r1 & w1 & ->). destruct r1 as [[]|e]; [|eauto]. run.
    destruct (check_metric_anomaly_frame "memory_usage"
                (memory_values (lastn 10 (items (metrics_buffer self)))) self w1)
      as (r2 & w2 & ->). destruct r2 as [[]|e]; [|eauto]. run.
    apply check_metric_anomaly_frame. }
  destruct H as (r & w' & Hrun). exists r, w'. split; [exact Hrun|].
  unfold anomaly_detection_turn. run.
  destruct (10 <=? length (items (metrics_buffer self))); [|reflexivity].
  rewrite Hrun. destruct r; reflexivity.
Qed.

Lemma baselines_never_refreshed_witness :
  fst (anomaly_detection_turn
         (foldl (fun self m => buffer_metrics m self) (watching "cpu_usage" steady)
                (replicate 60 idle), quiet)) =
  foldl (fun self m => buffer_metrics m self) (watching "cpu_usage" steady)
        (replicate 60 idle).
Proof.
  destruct (baselines_never_refreshed
              (foldl (fun self m => buffer_metrics m self) (watching "cpu_usage" steady)
                     (replicate 60 idle)) quiet) as (r & w' & _ & H).
  - vm_compute. discriminate.
  - exact H.
Defined.



(** ** Configuration and resource alerts *)




Section AnalysisFacts.

Variable float_repr : float -> string.
Variable thresholds : gmap string pynum.
Variable metrics : SystemMetrics.



End AnalysisFacts.






(** ** A turn of the log collection loop *)





























(** ** The metric collectors *)

Lemma list_to_map_dict_set {V} (k : string) (v : V) d :
  (list_to_map (dict_set k v d) : gmap string V) = <[k := v]> (list_to_map d).
Proof.
  induction d as [|[k' v'] d IH]; [reflexivity|]. cbn [dict_set].
  destruct (decide (k = k')) as [<-|Hne]; cbn [list_to_map foldr uncurry].
  - cbn. rewrite insert_insert_eq. reflexivity.
  - cbn. rewrite IH. apply insert_insert_ne. congruence.
Qed.

Lemma dict_set_fresh {V} (k : string) (v : V) d :
  k ∉ d.*1 -> dict_set k v d = d ++ [(k, v)].
Proof.
  induction d as [|[k' v'] d IH]; [reflexivity|]. cbn [fmap list_fmap fst dict_set].
  rewrite not_elem_of_cons. intros [Hne Hd].
  rewrite decide_False by exact Hne. rewrite IH by exact Hd. reflexivity.
Qed.

Lemma disk_percent_measured used total :
  disk_percent (used, total) =
  if (total =? 0)%Z then Raise (ZeroDivisionError "division by zero")
  else Ok (float_of_Z used / float_of_Z total * 100)%float.
Proof.
  unfold disk_percent. cbn [fst snd py_truediv]. destruct (total =? 0)%Z; reflexivity.
Qed.

Lemma disk_usages_map partitions d :
  (list_to_map (disk_usages partitions d) : gmap string float) =
  foldl (fun m '(k, v) => <[k := v]> m) (list_to_map d) (measured partitions).
Proof.
  revert d. induction partitions as [|[mp [[used total]|e]] partitions IH]; intros d;
    cbn [disk_usages measured omap list_omap]; [reflexivity| |apply IH].
  rewrite disk_percent_measured. destruct (total =? 0)%Z; [apply IH|].
  cbn [foldl]. rewrite IH, list_to_map_dict_set. reflexivity.
Qed.

Lemma measured_mounts partitions : (measured partitions).*1 `sublist_of` partitions.*1.
Proof.
  induction partitions as [|[mp [[used total]|e]] partitions IH];
    cbn [measured omap list_omap fmap list_fmap fst]; [constructor| |constructor; exact IH].
  destruct (total =? 0)%Z; cbn [fmap list_fmap fst]; constructor; exact IH.
Qed.

Lemma disk_usages_list partitions d :
  NoDup (d.*1 ++ partitions.*1) ->
  disk_usages partitions d = d ++ measured partitions.
Proof.
  revert d. induction partitions as [|[mp [[used total]|e]] partitions IH]; intros d Hnd;
    cbn [disk_usages measured omap list_omap].
  - rewrite app_nil_r. reflexivity.
  - assert (Hmp : mp ∉ d.*1).
    { apply NoDup_app in Hnd as (_ & Hdis & _). intros Hin. apply (Hdis mp Hin).
      cbn. apply list_elem_of_here. }
    assert (Hrest : NoDup (d.*1 ++ partitions.*1)).
    { cbn [fmap list_fmap fst] in Hnd. apply NoDup_app. apply NoDup_app in Hnd as (H1 & H2 & H3).
      split; [exact H1|]. split.
      - intros x Hx Hx'. apply (H2 x Hx). apply list_elem_of_further, Hx'.
      - apply NoDup_cons in H3 as [_ H3]. exact H3. }
    rewrite disk_percent_measured. destruct (total =? 0)%Z; [apply IH, Hrest|].
    rewrite IH.
    + rewrite dict_set_fresh by exact Hmp. rewrite <- app_assoc. reflexivity.
    + rewrite dict_set_fresh by exact Hmp. rewrite fmap_app. cbn [fmap list_fmap fst].
      rewrite <- app_assoc. exact Hnd.
  - apply IH. cbn [fmap list_fmap fst] in Hnd. apply NoDup_app.
    apply NoDup_app in Hnd as (H1 & H2 & H3).
    split; [exact H1|]. split.
    + intros x Hx Hx'. apply (H2 x Hx). apply list_elem_of_further, Hx'.
    + apply NoDup_cons in H3 as [_ H3]. exact H3.
Qed.

(** X19. The system collector never raises, and is all or nothing. When one
    of [cpu_percent], [virtual_memory], [disk_partitions] and [pids] raises,
    it returns the empty dictionary, even for what it had already read, and
    logs the first failure as one ERROR record. When all four answer, it
    logs nothing and returns the four metrics: the disk usage holds, for
    each partition whose usage can be read and whose total size is not
    zero, the percentage used, a later partition at the same mount point
    replacing an earlier one; a partition whose usage raises or whose total
    is zero is left out, silently; with distinct mount points the disks are
    in the order of the partitions. *)
Theorem system_collector_all_or_nothing ps self w :
  exists d w',
    SystemMetricCollector.collect_metrics ps (self, w) = (Ok d, (self, w')) /\
    (forall e, system_failure ps = Some e ->
       d = empty_dict /\
       w' = logged "ERROR" ("System metrics collection failed: " +:+ exn_str e) w) /\
    (forall cpu memory partitions n,
       cpu_percent ps = Ok cpu -> virtual_memory_percent ps = Ok memory ->
       disk_partitions ps = Ok partitions -> pids ps = Ok n ->
       w' = w /\
       exists disks,
         d = {| d_cpu_usage := Some cpu;
                d_memory_usage := Some memory;
                d_disk_usage := Some disks;
                d_active_processes := Some (Z.of_nat n);
                d_network_connections := None;
                d_failed_logins := None;
                d_security_alerts := None;
                d_compliance_score := None |} /\
         (list_to_map disks : gmap string float) =
           foldl (fun m '(k, v) => <[k := v]> m) ∅ (measured partitions) /\
         (NoDup partitions.*1 -> disks = measured partitions)).
Proof.
  unfold SystemMetricCollector.collect_metrics, system_failure.
  destruct (cpu_percent ps) as [cpu|e1]; [|].
  2: { eexists _, _. run. split; [reflexivity|]. split; [|discriminate].
       intros e [= <-]. auto. }
  destruct (virtual_memory_percent ps) as [memory|e2].
  2: { eexists _, _. run. split; [reflexivity|]. split; [|discriminate].
       intros e [= <-]. auto. }
  destruct (disk_partitions ps) as [partitions|e3].
  2: { eexists _, _. run. split; [reflexivity|]. split; [|discriminate].
       intros e [= <-]. auto. }
  destruct (pids ps) as [n|e4].
  2: { eexists _, _. run. split; [reflexivity|]. split; [|discriminate].
       intros e [= <-]. auto. }
  eexists _, _. run. split; [reflexivity|]. split; [discriminate|].
  intros ? ? ? ? [= <-] [= <-] [= <-] [= <-]. split; [reflexivity|].
  exists (disk_usages partitions []). split; [reflexivity|].
  split; [apply disk_usages_map|]. intros Hnd. apply (disk_usages_list partitions []), Hnd.
Qed.

Lemma system_collector_all_or_nothing_witness :
  exists d,
    SystemMetricCollector.collect_metrics healthy (init false, quiet) =
      (Ok d, (init false, quiet)) /\
    d_disk_usage d = Some [("/", 75%float); ("/boot", 25%float)].
Proof.
  destruct (system_collector_all_or_nothing healthy (init false) quiet)
    as (d & w' & Hrun & _ & Hok).
  destruct (Hok _ _ _ _ eq_refl eq_refl eq_refl eq_refl) as (Hw & disks & Hd & _ & Hl).
  exists d. rewrite Hw in Hrun. split; [exact Hrun|].
  rewrite Hd. cbn [d_disk_usage]. rewrite Hl; [reflexivity|].
  apply (bool_decide_unpack _). vm_compute. exact I.
Defined.

(** ** A turn of the metric collection loop *)

(** [_analyze_metrics] never changes the collector, whatever the thresholds. *)
Lemma analyze_metrics_frame float_repr thresholds mounts metrics self w :
  exists r w',
    _analyze_metrics float_repr thresholds mounts metrics (self, w) = (r, (self, w')).
Proof.
  assert (Hdisks : forall w, exists r w',
    for_each mounts (fun mount =>
      match disk_usage metrics !! mount with
      | Some usage =>
        disk_high <- lift (subscript thresholds "disk_high") ;;
        if py_lt disk_high (PyFloat usage)
        then _generate_resource_alert float_repr "disk" (PyFloat usage) (Some mount)
        else ret tt
      | None => ret tt
      end) (self, w) = (r, (self, w'))).
  { induction mounts as [|mount mounts' IH]; intros w0; [eexists _, _; reflexivity|].
    cbn [for_each]. run.
    destruct (disk_usage metrics !! mount) as [usage|]; run; [|apply IH].
    destruct (subscript thresholds "disk_high") as [disk_high|e]; run;
      [|eexists _, _; reflexivity].
    destruct (py_lt disk_high (PyFloat usage)); run; [|apply IH].
    rewrite generate_resource_alert_run. run. apply IH. }
  unfold _analyze_metrics. run.
  destruct (subscript thresholds "cpu_high") as [cpu_high|e]; run;
    [|eexists _, _; reflexivity].
  assert (Hrest : forall w, exists r w',
    (memory_high <- lift (subscript thresholds "memory_high") ;;
     (if py_lt memory_high (PyFloat (memory_usage metrics))
      then _generate_resource_alert float_repr "memory" (PyFloat (memory_usage metrics)) None
      else ret tt) ;;
     for_each mounts (fun mount =>
       match disk_usage metrics !! mount with
       | Some usage =>
         disk_high <- lift (subscript thresholds "disk_high") ;;
         if py_lt disk_high (PyFloat usage)
         then _generate_resource_alert float_repr "disk" (PyFloat usage) (Some mount)
         else ret tt
       | None => ret tt
       end) ;;
     network_connections_high <- lift (subscript thresholds "network_connections_high") ;;
     if py_lt network_connections_high (PyInt (network_connections metrics))
     then _generate_resource_alert float_repr "network"
            (PyInt (network_connections metrics)) None
     else ret tt) (self, w) = (r, (self, w'))).
  { intros w0. run.
    destruct (subscript thresholds "memory_high") as [memory_high|e]; run;
      [|eexists _, _; reflexivity].
    assert (Hnet : forall w, exists r w',
      (for_each mounts (fun mount =>
         match disk_usage metrics !! mount with
         | Some usage =>
           disk_high <- lift (subscript thresholds "disk_high") ;;
           if py_lt disk_high (PyFloat usage)
           then _generate_resource_alert float_repr "disk" (PyFloat usage) (Some mount)
           else ret tt
         | None => ret tt
         end) ;;
       network_connections_high <- lift (subscript thresholds "network_connections_high") ;;
       if py_lt network_connections_high (PyInt (network_connections metrics))
       then _generate_resource_alert float_repr "network"
              (PyInt (network_connections metrics)) None
       else ret tt) (self, w) = (r, (self, w'))).
    { intros w1. run. destruct (Hdisks w1) as (r & w2 & ->).
      destruct r as [[]|e]; [|eexists _, _; reflexivity]. run.
      destruct (subscript thresholds "network_connections_high") as [nh|e]; run;
        [|eexists _, _; reflexivity].
      destruct (py_lt nh (PyInt (network_connections metrics))); run;
        [rewrite generate_resource_alert_run|]; eexists _, _; reflexivity. }
    destruct (py_lt memory_high (PyFloat (memory_usage metrics))); run;
      [rewrite generate_resource_alert_run; run|]; apply Hnet. }
  destruct (py_lt cpu_high (PyFloat (cpu_usage metrics))); run;
    [rewrite generate_resource_alert_run; run|]; apply Hrest.
Qed.

Lemma network_collector_run ps self w :
  exists d w',
    NetworkMetricCollector.collect_metrics ps (self, w) = (Ok d, (self, w')) /\
    ticks w' = ticks w /\ utcnow_isoformat w' = utcnow_isoformat w /\
    d_cpu_usage d = None /\ d_memory_usage d = None /\ d_disk_usage d = None /\
    d_active_processes d = None /\ d_failed_logins d = None /\
    d_security_alerts d = None /\ d_compliance_score d = None /\
    d_network_connections d =
      match net_connections ps with Ok n => Some (Z.of_nat n) | Raise _ => None end /\
    exists records, log_records w' = log_records w ++ records.
Proof.
  unfold NetworkMetricCollector.collect_metrics.
  destruct (net_connections ps) as [n|e]; eexists _, _; run;
    do 11 (split; [reflexivity|]);
    first [exists []; rewrite app_nil_r; reflexivity | eexists [_]; reflexivity].
Qed.

Lemma system_collector_run ps self w :
  exists d w',
    SystemMetricCollector.collect_metrics ps (self, w) = (Ok d, (self, w')) /\
    ticks w' = ticks w /\ utcnow_isoformat w' = utcnow_isoformat w /\
    d_network_connections d = None /\ d_failed_logins d = None /\
    d_security_alerts d = None /\ d_compliance_score d = None /\
    (forall e, system_failure ps = Some e -> d = empty_dict) /\
    (forall cpu memory partitions n,
       cpu_percent ps = Ok cpu -> virtual_memory_percent ps = Ok memory ->
       disk_partitions ps = Ok partitions -> pids ps = Ok n ->
       d_cpu_usage d = Some cpu /\ d_memory_usage d = Some memory /\
       d_active_processes d = Some (Z.of_nat n) /\
       d_disk_usage d = Some (disk_usages partitions [])) /\
    exists records, log_records w' = log_records w ++ records.
Proof.
  unfold SystemMetricCollector.collect_metrics, system_failure.
  destruct (cpu_percent ps) as [cpu|e1], (virtual_memory_percent ps) as [memory|e2],
           (disk_partitions ps) as [partitions|e3], (pids ps) as [n|e4];
    eexists _, _; run; do 7 (split; [reflexivity|]);
    (split; [intros e' He'; try discriminate; reflexivity|]);
    (split; [intros ? ? ? ? Hc Hm Hp Hn; try discriminate;
             injection Hc as <-; injection Hm as <-; injection Hp as <-;
             injection Hn as <-; repeat split|]);
    first [exists []; rewrite app_nil_r; reflexivity | eexists [_]; reflexivity].
Qed.

(** X20. A turn of the metric collection loop always buffers one snapshot,
    stamped with the first clock reading of the turn, before it analyses
    it, and never raises. The snapshot reports no failed login, no security
    alert and a compliance score of 85, whatever the host does. When the
    system collector fails, the snapshot is not skipped: it is buffered
    with a CPU usage, a memory usage and a number of processes of zero and
    no disk; likewise a failed network collector gives zero connections.
    When the collectors answer, the snapshot carries their readings. When a
    threshold is missing, here [cpu_high], the snapshot is buffered
    all the same and the turn ends with one "Metrics collection error"
    record. *)
Theorem metric_turn_buffers_snapshot float_repr thresholds ps self w :
  exists m w',
    metric_collection_turn float_repr thresholds ps (self, w) = (buffer_metrics m self, w') /\
    metrics_timestamp m = utcnow_isoformat w (ticks w) /\
    failed_logins m = 0%Z /\ security_alerts m = 0%Z /\ compliance_score m = 85%float /\
    (forall e, system_failure ps = Some e ->
       cpu_usage m = 0%float /\ memory_usage m = 0%float /\ disk_usage m = ∅ /\
       active_processes m = 0%Z) /\
    (forall cpu memory partitions n,
       cpu_percent ps = Ok cpu -> virtual_memory_percent ps = Ok memory ->
       disk_partitions ps = Ok partitions -> pids ps = Ok n ->
       cpu_usage m = cpu /\ memory_usage m = memory /\ active_processes m = Z.of_nat n /\
       disk_usage m = foldl (fun m '(k, v) => <[k := v]> m) ∅ (measured partitions)) /\
    network_connections m =
      match net_connections ps with Ok n => Z.of_nat n | Raise _ => 0%Z end /\
    (thresholds !! "cpu_high" = None ->
     exists records,
       log_records w' =
         log_records w ++ records ++ [("ERROR", "Metrics collection error: 'cpu_high'")]).
Proof.
  unfold metric_collection_turn, collect_and_analyze. run.
  destruct (system_collector_run ps self w)
    as (system & w1 & -> & Ht1 & Hu1 & Hs1 & Hs2 & Hs3 & Hs4 & Hfail & Hgood & records1 & Hr1).
  run.
  destruct (network_collector_run ps self w1)
    as (network & w2 & -> & Ht2 & Hu2 & Hn1 & Hn2 & Hn3 & Hn4 & Hn5 & Hn6 & Hn7 & Hn8
        & records2 & Hr2).
  unfold SecurityMetricCollector.collect_metrics, ComplianceMetricCollector.collect_metrics.
  run.
  set (metrics := update (update (update (update empty_dict system) network) _) _).
  set (m := snapshot (utcnow_isoformat w2 (ticks w2)) metrics).
  exists m.
  destruct (analyze_metrics_frame float_repr thresholds (default [] (d_disk_usage metrics)).*1
              m (buffer_metrics m self) (tick w2)) as (r & w3 & Hrun).
  assert (Hfields :
    metrics_timestamp m = utcnow_isoformat w (ticks w) /\
    failed_logins m = 0%Z /\ security_alerts m = 0%Z /\ compliance_score m = 85%float /\
    (forall e, system_failure ps = Some e ->
       cpu_usage m = 0%float /\ memory_usage m = 0%float /\ disk_usage m = ∅ /\
       active_processes m = 0%Z) /\
    (forall cpu memory partitions n,
       cpu_percent ps = Ok cpu -> virtual_memory_percent ps = Ok memory ->
       disk_partitions ps = Ok partitions -> pids ps = Ok n ->
       cpu_usage m = cpu /\ memory_usage m = memory /\ active_processes m = Z.of_nat n /\
       disk_usage m = foldl (fun m '(k, v) => <[k := v]> m) ∅ (measured partitions)) /\
    network_connections m =
      match net_connections ps with Ok n => Z.of_nat n | Raise _ => 0%Z end).
  { split; [unfold m; cbn [metrics_timestamp snapshot]; congruence|].
    split; [reflexivity|]. split; [reflexivity|]. split; [reflexivity|].
    split; [|split].
    - intros e0 He. unfold m, metrics. rewrite (Hfail e0 He).
      unfold snapshot, update.
      cbn [cpu_usage memory_usage disk_usage active_processes d_cpu_usage d_memory_usage
           d_disk_usage d_active_processes empty_dict].
      rewrite Hn1, Hn2, Hn3, Hn4. repeat split.
    - intros cpu memory partitions n Hc Hm Hp Hn.
      destruct (Hgood cpu memory partitions n Hc Hm Hp Hn) as (Hg1 & Hg2 & Hg3 & Hg4).
      unfold m, metrics, snapshot, update.
      cbn [cpu_usage memory_usage disk_usage active_processes d_cpu_usage d_memory_usage
           d_disk_usage d_active_processes empty_dict].
      rewrite Hn1, Hn2, Hn3, Hn4, Hg1, Hg2, Hg3, Hg4. cbn [default].
      repeat (split; [reflexivity|]). apply (disk_usages_map partitions []).
    - unfold m, metrics, snapshot, update.
      cbn [network_connections d_network_connections empty_dict].
      rewrite Hn8, Hs1. destruct (net_connections ps); reflexivity. }
  destruct r as [[]|e].
  - exists w3. rewrite Hrun. split; [reflexivity|].
    destruct Hfields as (H1 & H2 & H3 & H4 & H5 & H6 & H7).
    repeat (split; [assumption|]).
    intros Hc. exfalso. revert Hrun. unfold _analyze_metrics, subscript. rewrite Hc. run.
    discriminate.
  - eexists. rewrite Hrun. run. split; [reflexivity|].
    destruct Hfields as (H1 & H2 & H3 & H4 & H5 & H6 & H7).
    repeat (split; [assumption|]).
    intros Hc. revert Hrun. unfold _analyze_metrics, subscript. rewrite Hc. run.
    intros [= <- <-]. cbn [log_records logged tick exn_str KeyError].
    exists (records1 ++ records2). rewrite Hr2, Hr1, <- !app_assoc. reflexivity.
Qed.
